(** * Cerina Protocol Foundry: the blackboard state, the router and the
      human-in-the-loop endpoints, embedded from the Python sources.

    - [backend/agents/state.py]    : [ProtocolState], [create_initial_state],
                                     [add_agent_note], [add_draft_version]
    - [backend/agents/workflow.py] : the four graph nodes, [should_continue],
                                     the edges of [create_workflow] and the
                                     database path of [get_checkpointer]
    - [backend/main.py]            : [serialize_state_for_json],
                                     [create_protocol], [stream_protocol],
                                     [approve_protocol], [halt_protocol]

    Conventions of the embedding.
    - A Python [int] is a [Z]; a Python [float] is a primitive [float];
      a [datetime] is the number of microseconds since the epoch, a [Z].
    - A Python [str] is a [string]; one [ascii] stands for one code point
      (the code points 0..255).
    - [Optional[T]] is [option T]; a [dict] used as a map is a [gmap].
    - [datetime.now()] is an input: every function that reads the clock takes
      its readings as arguments, in the order in which it reads them.
    - A Python function that mutates its argument and returns it becomes a
      function from the old record to the new one.
    - An exception is a value of [exn]; code that can raise returns a [result]. *)

From Stdlib Require Import ZArith String Ascii List Bool Lia PrimFloat.
From Stdlib Require Import DecimalString.
From stdpp Require Import base option gmap strings list fin_maps.

Open Scope Z_scope.
Open Scope string_scope.
Open Scope list_scope.

(** ** Python helpers *)

Definition datetime := Z.

(** [sub in s] on strings. *)
Fixpoint str_in (sub s : string) : bool :=
  String.prefix sub s ||
  match s with
  | EmptyString => false
  | String _ s' => str_in sub s'
  end.

(** Truth value of an [Optional[str]]: [None] and the empty string are false. *)
Definition truthy_str (o : option string) : bool :=
  match o with
  | None => false
  | Some s => negb (String.eqb s "")
  end.

(** [o == lit] for an [Optional[str]] compared with a string literal. *)
Definition opt_str_eqb (o : option string) (lit : string) : bool :=
  match o with
  | None => false
  | Some s => String.eqb s lit
  end.

(** [str.isspace] on one code point below 256: the characters whose
    bidirectional class is WS, B or S, or whose category is Zs. *)
Definition isspace (c : ascii) : bool :=
  let n := N_of_ascii c in
  ((9 <=? n) && (n <=? 13) || (28 <=? n) && (n <=? 32)
   || (n =? 133) || (n =? 160))%N.

Fixpoint lstrip (s : string) : string :=
  match s with
  | EmptyString => EmptyString
  | String c s' => if isspace c then lstrip s' else s
  end.

(** [rstrip]: drop the trailing run of whitespace. *)
Fixpoint rstrip (s : string) : string :=
  match s with
  | EmptyString => EmptyString
  | String c s' =>
      match rstrip s' with
      | EmptyString => if isspace c then EmptyString else String c EmptyString
      | r => String c r
      end
  end.

(** [str.strip()] with no argument. *)
Definition strip (s : string) : string := rstrip (lstrip s).

(** ** agents/state.py *)

Module State.

Record AgentNote := mkNote {
  agent_name : string;
  note : string;
  target_agent : option string;
  note_timestamp : datetime;
  priority : string
}.

Record ProtocolDraft := mkDraft {
  content : string;
  version : Z;
  iteration : Z;
  created_by : string;
  draft_timestamp : datetime;
  draft_safety_score : option float;
  draft_empathy_score : option float;
  draft_clinical_score : option float;
  feedback : list string
}.

Record ProtocolState := mkState {
  user_intent : string;
  session_id : string;
  status : string;
  current_draft : option string;
  draft_history : list ProtocolDraft;
  current_version : Z;
  iteration_count : Z;
  max_iterations : Z;
  agent_notes : list AgentNote;
  active_agent : option string;
  agent_decisions : gmap string string;
  safety_checks : gmap string bool;
  safety_score : option float;
  empathy_score : option float;
  clinical_score : option float;
  halted : bool;
  human_approved : bool;
  human_edits : option string;
  start_time : datetime;
  last_update : datetime;
  metadata : gmap string string
}.

(** [state[key] = v], one function per key that the program assigns, and
    [set_max_iterations] to vary the cap in statements about the router. *)

Definition set_status (v : string) (s : ProtocolState) : ProtocolState :=
  let 'mkState ui sid _ cd dh cv ic mi an aa ad sc ss es cs h ha he t0 lu md := s in
  mkState ui sid v cd dh cv ic mi an aa ad sc ss es cs h ha he t0 lu md.

Definition set_current_draft (v : option string) (s : ProtocolState) : ProtocolState :=
  let 'mkState ui sid st _ dh cv ic mi an aa ad sc ss es cs h ha he t0 lu md := s in
  mkState ui sid st v dh cv ic mi an aa ad sc ss es cs h ha he t0 lu md.

Definition set_draft_history (v : list ProtocolDraft) (s : ProtocolState) : ProtocolState :=
  let 'mkState ui sid st cd _ cv ic mi an aa ad sc ss es cs h ha he t0 lu md := s in
  mkState ui sid st cd v cv ic mi an aa ad sc ss es cs h ha he t0 lu md.

Definition set_current_version (v : Z) (s : ProtocolState) : ProtocolState :=
  let 'mkState ui sid st cd dh _ ic mi an aa ad sc ss es cs h ha he t0 lu md := s in
  mkState ui sid st cd dh v ic mi an aa ad sc ss es cs h ha he t0 lu md.

Definition set_iteration_count (v : Z) (s : ProtocolState) : ProtocolState :=
  let 'mkState ui sid st cd dh cv _ mi an aa ad sc ss es cs h ha he t0 lu md := s in
  mkState ui sid st cd dh cv v mi an aa ad sc ss es cs h ha he t0 lu md.

Definition set_max_iterations (v : Z) (s : ProtocolState) : ProtocolState :=
  let 'mkState ui sid st cd dh cv ic _ an aa ad sc ss es cs h ha he t0 lu md := s in
  mkState ui sid st cd dh cv ic v an aa ad sc ss es cs h ha he t0 lu md.

Definition set_agent_notes (v : list AgentNote) (s : ProtocolState) : ProtocolState :=
  let 'mkState ui sid st cd dh cv ic mi _ aa ad sc ss es cs h ha he t0 lu md := s in
  mkState ui sid st cd dh cv ic mi v aa ad sc ss es cs h ha he t0 lu md.

Definition set_active_agent (v : option string) (s : ProtocolState) : ProtocolState :=
  let 'mkState ui sid st cd dh cv ic mi an _ ad sc ss es cs h ha he t0 lu md := s in
  mkState ui sid st cd dh cv ic mi an v ad sc ss es cs h ha he t0 lu md.

Definition set_safety_checks (v : gmap string bool) (s : ProtocolState) : ProtocolState :=
  let 'mkState ui sid st cd dh cv ic mi an aa ad _ ss es cs h ha he t0 lu md := s in
  mkState ui sid st cd dh cv ic mi an aa ad v ss es cs h ha he t0 lu md.

Definition set_safety_score (v : option float) (s : ProtocolState) : ProtocolState :=
  let 'mkState ui sid st cd dh cv ic mi an aa ad sc _ es cs h ha he t0 lu md := s in
  mkState ui sid st cd dh cv ic mi an aa ad sc v es cs h ha he t0 lu md.

Definition set_empathy_score (v : option float) (s : ProtocolState) : ProtocolState :=
  let 'mkState ui sid st cd dh cv ic mi an aa ad sc ss _ cs h ha he t0 lu md := s in
  mkState ui sid st cd dh cv ic mi an aa ad sc ss v cs h ha he t0 lu md.

Definition set_clinical_score (v : option float) (s : ProtocolState) : ProtocolState :=
  let 'mkState ui sid st cd dh cv ic mi an aa ad sc ss es _ h ha he t0 lu md := s in
  mkState ui sid st cd dh cv ic mi an aa ad sc ss es v h ha he t0 lu md.

Definition set_halted (v : bool) (s : ProtocolState) : ProtocolState :=
  let 'mkState ui sid st cd dh cv ic mi an aa ad sc ss es cs _ ha he t0 lu md := s in
  mkState ui sid st cd dh cv ic mi an aa ad sc ss es cs v ha he t0 lu md.

Definition set_human_approved (v : bool) (s : ProtocolState) : ProtocolState :=
  let 'mkState ui sid st cd dh cv ic mi an aa ad sc ss es cs h _ he t0 lu md := s in
  mkState ui sid st cd dh cv ic mi an aa ad sc ss es cs h v he t0 lu md.

Definition set_human_edits (v : option string) (s : ProtocolState) : ProtocolState :=
  let 'mkState ui sid st cd dh cv ic mi an aa ad sc ss es cs h ha _ t0 lu md := s in
  mkState ui sid st cd dh cv ic mi an aa ad sc ss es cs h ha v t0 lu md.

Definition set_last_update (v : datetime) (s : ProtocolState) : ProtocolState :=
  let 'mkState ui sid st cd dh cv ic mi an aa ad sc ss es cs h ha he t0 _ md := s in
  mkState ui sid st cd dh cv ic mi an aa ad sc ss es cs h ha he t0 v md.

(** [create_initial_state(user_intent, session_id, max_iterations)];
    [now] is the single clock reading. *)
Definition create_initial_state (now : datetime)
    (user_intent session_id : string) (max_iterations : Z) : ProtocolState :=
  {| user_intent := user_intent;
     session_id := session_id;
     status := "initializing";
     current_draft := None;
     draft_history := [];
     current_version := 0;
     iteration_count := 0;
     max_iterations := max_iterations;
     agent_notes := [];
     active_agent := None;
     agent_decisions := ∅;
     safety_checks := ∅;
     safety_score := None;
     empathy_score := None;
     clinical_score := None;
     halted := false;
     human_approved := false;
     human_edits := None;
     start_time := now;
     last_update := now;
     metadata := ∅ |}.

(** [add_agent_note]; [t_note] stamps the note, [t_upd] stamps the state. *)
Definition add_agent_note (t_note t_upd : datetime) (state : ProtocolState)
    (agent_name note : string) (target_agent : option string)
    (priority : string) : ProtocolState :=
  let new_note := mkNote agent_name note target_agent t_note priority in
  let state := set_agent_notes (agent_notes state ++ [new_note]) state in
  set_last_update t_upd state.

(** [add_draft_version]; [t_draft] stamps the record, [t_upd] the state. *)
Definition add_draft_version (t_draft t_upd : datetime) (state : ProtocolState)
    (content created_by : string)
    (safety_score empathy_score clinical_score : option float) : ProtocolState :=
  let new_draft :=
    {| content := content;
       version := current_version state + 1;
       iteration := iteration_count state;
       created_by := created_by;
       draft_timestamp := t_draft;
       draft_safety_score := safety_score;
       draft_empathy_score := empathy_score;
       draft_clinical_score := clinical_score;
       feedback := [] |} in
  let state := set_draft_history (draft_history state ++ [new_draft]) state in
  let state := set_current_version (version new_draft) state in
  let state := set_current_draft (Some content) state in
  set_last_update t_upd state.

End State.
Export State.

(** ** Exceptions *)

(** The exceptions that the modelled code raises or catches.  [str] of a
    Starlette [HTTPException] is its status code, a colon and its detail. *)
Inductive exn :=
  | HTTPException (status_code : Z) (detail : string)
  | AttributeError (msg : string)
  | ExternalError (msg : string).

Inductive result (A : Type) :=
  | Return (a : A)
  | Raise (e : exn).
Arguments Return {A} a.
Arguments Raise {A} e.

Definition bind {A B : Type} (r : result A) (k : A -> result B) : result B :=
  match r with
  | Return a => k a
  | Raise e => Raise e
  end.

Notation "x <- r ;; k" := (bind r (fun x => k))
  (at level 100, r at next level, right associativity).

(** ** agents/workflow.py *)

Module Workflow.

(** The dictionaries returned by the four agents.  A key that may be missing
    is an [option]; at an [Optional] value type the inner [option] is the
    value. *)
Record DraftResult := mkDraftResult {
  r_current_draft : option (option string);
  r_active_agent : option (option string);
  r_status : option string
}.

Record ReviewResult := mkReviewResult {
  sr_safety_checks : option (gmap string bool);
  sr_safety_score : option (option float);
  sr_status : option string
}.

Record CritiqueResult := mkCritiqueResult {
  cr_empathy_score : option (option float);
  cr_clinical_score : option (option float);
  cr_status : option string
}.

Record DecisionResult := mkDecisionResult {
  dr_status : option string;
  dr_halted : option bool
}.

(** The agents of [agents/agents.py] are collaborators outside this
    development: each one maps the state it is given to the dictionary it
    returns, or raises. *)
Record Agents := mkAgents {
  drafter_draft : ProtocolState -> result DraftResult;
  safety_guardian_review : ProtocolState -> result ReviewResult;
  clinical_critic_critique : ProtocolState -> result CritiqueResult;
  supervisor_decide : ProtocolState -> result DecisionResult
}.

(** The return values of [should_continue]. *)
Inductive Route :=
  | to_draft
  | to_safety_review
  | to_clinical_critique
  | to_supervisor
  | to_halt
  | to_end.

(** A node mutates the dictionary it is given and returns that same
    dictionary.  Its model returns the dictionary as the call leaves it, and
    the exception if the call raised instead of returning. *)
Definition node_outcome : Type := ProtocolState * option exn.

Section Nodes.
Variable agents : Agents.

(** [draft_node]; the two clock readings are those of [add_draft_version]. *)
Definition draft_node (t_draft t_upd : datetime) (state : ProtocolState)
    : node_outcome :=
  match drafter_draft agents state with
  | Raise e => (state, Some e)
  | Return res =>
      let state :=
        set_current_draft
          (default (current_draft state) (r_current_draft res)) state in
      let state :=
        set_active_agent (default (Some "Drafter") (r_active_agent res)) state in
      let state := set_status (default "drafting" (r_status res)) state in
      let state := set_iteration_count (iteration_count state + 1) state in
      let state :=
        match current_draft state with
        | Some c =>
            if truthy_str (Some c)
            then add_draft_version t_draft t_upd state c "Drafter" None None None
            else state
        | None => state
        end in
      (state, None)
  end.

Definition safety_review_node (state : ProtocolState) : node_outcome :=
  match safety_guardian_review agents state with
  | Raise e => (state, Some e)
  | Return res =>
      let state :=
        match sr_safety_checks res with
        | Some checks => set_safety_checks (checks ∪ safety_checks state) state
        | None => state
        end in
      let state :=
        match sr_safety_score res with
        | Some v => set_safety_score v state
        | None => state
        end in
      let state := set_active_agent (Some "SafetyGuardian") state in
      let state := set_status (default "reviewing" (sr_status res)) state in
      (state, None)
  end.

Definition clinical_critique_node (state : ProtocolState) : node_outcome :=
  match clinical_critic_critique agents state with
  | Raise e => (state, Some e)
  | Return res =>
      let state :=
        match cr_empathy_score res with
        | Some v => set_empathy_score v state
        | None => state
        end in
      let state :=
        match cr_clinical_score res with
        | Some v => set_clinical_score v state
        | None => state
        end in
      let state := set_active_agent (Some "ClinicalCritic") state in
      let state := set_status (default "critiquing" (cr_status res)) state in
      (state, None)
  end.

Definition supervisor_node (state : ProtocolState) : node_outcome :=
  match supervisor_decide agents state with
  | Raise e => (state, Some e)
  | Return res =>
      let state := set_active_agent (Some "Supervisor") state in
      let state := set_status (default "deciding" (dr_status res)) state in
      let state :=
        if default false (dr_halted res)
        then set_status "awaiting_approval" (set_halted true state)
        else state in
      (state, None)
  end.
End Nodes.

(** [should_continue].  The function returns its decision; the second
    component is the argument dictionary as the call leaves it (the branch
    for an approved state assigns [state["halted"]]). *)
Definition should_continue (state : ProtocolState) : Route * ProtocolState :=
  if halted state then (to_halt, state)
  else if human_approved state then (to_end, set_halted false state)
  else
    let active_agent := active_agent state in
    let status := status state in
    if opt_str_eqb active_agent "Drafter" then (to_safety_review, state)
    else if opt_str_eqb active_agent "SafetyGuardian" then (to_clinical_critique, state)
    else if opt_str_eqb active_agent "ClinicalCritic" then (to_supervisor, state)
    else if opt_str_eqb active_agent "Supervisor" then
      if str_in "needs_revision" status then (to_draft, state)
      else if str_in "ready_for_review" status || str_in "awaiting_review" status
      then (to_halt, state)
      else (to_end, state)
    else if negb (truthy_str (current_draft state)) then (to_draft, state)
    else (to_supervisor, state).

(** The decision alone. *)
Definition route (state : ProtocolState) : Route := fst (should_continue state).

(** *** [create_workflow]: the graph and its run loop *)

Inductive Node :=
  | draft
  | safety_review
  | clinical_critique
  | supervisor.

Definition entry_point : Node := draft.

(** The mappings given to [add_conditional_edges], one per source node.
    [None]: the decision is not a key of the mapping; [Some None]: [END]. *)
Definition conditional_edges (n : Node) (r : Route) : option (option Node) :=
  match n, r with
  | _, to_draft => Some (Some draft)
  | draft, to_safety_review => Some (Some safety_review)
  | _, to_safety_review => None
  | (draft | safety_review | supervisor), to_clinical_critique =>
      Some (Some clinical_critique)
  | clinical_critique, to_clinical_critique => None
  | _, to_supervisor => Some (Some supervisor)
  | _, to_halt => Some None
  | _, to_end => Some None
  end.

Section Graph.
Variable agents : Agents.
(** [clock i] is the [i]-th reading of [datetime.now()] during the run. *)
Variable clock : nat -> datetime.

Definition run_node (tick : nat) (n : Node) (state : ProtocolState)
    : node_outcome :=
  match n with
  | draft => draft_node agents (clock tick) (clock (S tick)) state
  | safety_review => safety_review_node agents state
  | clinical_critique => clinical_critique_node agents state
  | supervisor => supervisor_node agents state
  end.

(** One turn of the loop: run the node, then ask [should_continue] for the
    next one ([None] is [END]).  The router works on its own copy of the
    state.  A node that raises ends the run, and so does a decision that
    is not a key of the node's mapping. *)
Definition graph_step (tick : nat) (n : Node) (state : ProtocolState)
    : result (ProtocolState * option Node) :=
  match run_node tick n state with
  | (_, Some e) => Raise e
  | (state', None) =>
      match conditional_edges n (fst (should_continue state')) with
      | Some next => Return (state', next)
      | None => Raise (ExternalError "branch returned an unknown destination")
      end
  end.

(** The states that a run starting at node [n] writes as checkpoints in its
    first [fuel] turns, oldest first; the list ends early at [END] and at
    a raise, which writes nothing. *)
Fixpoint run_graph (fuel : nat) (tick : nat) (n : Node) (state : ProtocolState)
    : list ProtocolState :=
  match fuel with
  | O => []
  | S fuel' =>
      match graph_step tick n state with
      | Raise _ => []
      | Return (state', None) => [state']
      | Return (state', Some n') =>
          state' :: run_graph fuel' (S (S tick)) n' state'
      end
  end.
End Graph.

End Workflow.
Export Workflow.

(** ** main.py *)

Module Main.

(** What the endpoints read and write: the checkpoints of the LangGraph
    saver, one latest state per thread id; the module-level dictionary
    [_session_intents]; the background tasks handed to FastAPI.
    [store_writable] says whether [aupdate_state] succeeds; the handlers
    guard that call with [except] clauses, so both outcomes are modelled. *)
Record World := mkWorld {
  checkpoints : gmap string ProtocolState;
  session_intents : gmap string string;
  background_tasks : list string;
  store_writable : bool
}.

Definition set_checkpoints (v : gmap string ProtocolState) (w : World) : World :=
  mkWorld v (session_intents w) (background_tasks w) (store_writable w).

Definition set_session_intents (v : gmap string string) (w : World) : World :=
  mkWorld (checkpoints w) v (background_tasks w) (store_writable w).

Definition set_background_tasks (v : list string) (w : World) : World :=
  mkWorld (checkpoints w) (session_intents w) v (store_writable w).

(** Computations of a handler: they change the world and return or raise. *)
Definition io (A : Type) : Type := World -> World * result A.

Definition io_ret {A : Type} (a : A) : io A := fun w => (w, Return a).

Definition io_raise {A : Type} (e : exn) : io A := fun w => (w, Raise e).

Definition io_bind {A B : Type} (m : io A) (k : A -> io B) : io B :=
  fun w =>
    match m w with
    | (w', Return a) => k a w'
    | (w', Raise e) => (w', Raise e)
    end.

Notation "x <~ m ;; k" := (io_bind m (fun x => k))
  (at level 100, m at next level, right associativity).

Definition io_lift {A : Type} (r : result A) : io A := fun w => (w, r).

(** [try: body except Exception as e: handler(e)] around a computation. *)
Definition io_try {A : Type} (body : io A) (handler : exn -> io A) : io A :=
  fun w =>
    match body w with
    | (w', Return a) => (w', Return a)
    | (w', Raise e) => handler e w'
    end.

(** [str(e)]. *)
Definition str_exn (e : exn) : string :=
  match e with
  | HTTPException code detail =>
      NilZero.string_of_int (Z.to_int code) +:+ ": " +:+ detail
  | AttributeError msg => msg
  | ExternalError msg => msg
  end.

(** [(await workflow.aget_state(config)).values]: [None] stands for the empty
    dictionary of a thread that has no checkpoint. *)
Definition aget_state (sid : string) : io (option ProtocolState) :=
  fun w => (w, Return (checkpoints w !! sid)).

(** [await workflow.aupdate_state(config, values)] with a full state. *)
Definition aupdate_state (sid : string) (values : ProtocolState) : io unit :=
  fun w =>
    if store_writable w
    then (set_checkpoints (<[sid := values]> (checkpoints w)) w, Return tt)
    else (w, Raise (ExternalError "checkpoint store unavailable")).

(** [_session_intents[sid] = intent]. *)
Definition intents_set (sid intent : string) : io unit :=
  fun w =>
    (set_session_intents (<[sid := intent]> (session_intents w)) w, Return tt).

(** [_session_intents.pop(sid, None)]. *)
Definition intents_pop (sid : string) : io unit :=
  fun w => (set_session_intents (delete sid (session_intents w)) w, Return tt).

(** [background_tasks.add_task(start_workflow_background, ..., sid)]. *)
Definition add_task (sid : string) : io unit :=
  fun w => (set_background_tasks (background_tasks w ++ [sid]) w, Return tt).

(** The running of the compiled graph is LangGraph's: a parameter.
    [astream w sid] is the stream of update events of a resumed run, each one
    with the names of the nodes it reports and the world as the consumer
    finds it; then the world at the end of the stream, and the exception
    that ended it if there is one.  [ainvoke] runs to the end and returns
    the final state. *)
Record Engine := mkEngine {
  astream : World -> string -> list (list string * World) * World * option exn;
  ainvoke : string -> io ProtocolState
}.

(** *** Requests and responses (models.py) *)

Record ProtocolRequest := mkProtocolRequest {
  intent : string;
  req_session_id : option string
}.

Record ProtocolResponse := mkProtocolResponse {
  resp_session_id : string;
  resp_status : string;
  resp_message : string;
  resp_timestamp : option datetime
}.

Record ApproveRequest := mkApproveRequest {
  approved_content : option string
}.

Record ApproveResponse := mkApproveResponse {
  ar_session_id : string;
  ar_status : string;
  ar_message : string;
  ar_final_state : ProtocolState
}.

Record HaltResponse := mkHaltResponse {
  hr_session_id : string;
  hr_status : string;
  hr_current_draft : option string;
  hr_message : string
}.

(** The dictionaries yielded by [event_generator].  The state travels as the
    record itself ([None] for the empty dictionary); its JSON text is not
    modelled. *)
Inductive SSE :=
  | ev_complete (state : option ProtocolState) (timestamp : datetime)
  | ev_halted (state : option ProtocolState) (message : string)
      (timestamp : datetime)
  | ev_state_update (node : string) (state : option ProtocolState)
      (agent_thought : string) (active : option string) (timestamp : datetime)
  | ev_error (error : string).

(** The ["event"] key of the dictionary. *)
Definition event_name (e : SSE) : string :=
  match e with
  | ev_complete _ _ => "complete"
  | ev_halted _ _ _ => "halted"
  | ev_state_update _ _ _ _ _ => "state_update"
  | ev_error _ => "error"
  end.

Definition event_state (e : SSE) : option ProtocolState :=
  match e with
  | ev_complete st _ | ev_halted st _ _ | ev_state_update _ st _ _ _ => st
  | ev_error _ => None
  end.

Definition event_timestamp (e : SSE) : option datetime :=
  match e with
  | ev_complete _ t | ev_halted _ _ t | ev_state_update _ _ _ _ t => Some t
  | ev_error _ => None
  end.

(** *** [create_protocol] *)

Section Create.
(** The text that the f-string prints for [datetime.now().timestamp()]. *)
Variable timestamp_repr : datetime -> string.

(** [request.session_id or f"session_{datetime.now().timestamp()}"]. *)
Definition new_session_id (t_id : datetime) (request : ProtocolRequest)
    : string :=
  if truthy_str (req_session_id request)
  then default "" (req_session_id request)
  else "session_" +:+ timestamp_repr t_id.

(** Clock readings: [t_id] for a generated session id, [t_state] for
    [create_initial_state], [t_resp] for the response's timestamp.  The
    compiled graph has the method [aupdate_state], so of the [hasattr] test
    only the branch that calls it is modelled. *)
Definition create_protocol (t_id t_state t_resp : datetime)
    (request : ProtocolRequest) : io ProtocolResponse :=
  io_try
    (let session_id := new_session_id t_id request in
     _ <~ intents_set session_id (intent request) ;;
     let initial_state :=
       create_initial_state t_state (intent request) session_id 5 in
     checkpoint_created <~
       io_try (_ <~ aupdate_state session_id initial_state ;; io_ret true)
              (fun _ => io_ret false) ;;
     _ <~ (if checkpoint_created : bool
           then intents_pop session_id
           else io_ret tt) ;;
     _ <~ add_task session_id ;;
     io_ret
       {| resp_session_id := session_id;
          resp_status := "initializing";
          resp_message :=
            "Protocol generation initialized. Workflow execution started.";
          resp_timestamp := Some t_resp |})
    (fun e =>
       io_raise (HTTPException 500 ("Failed to create protocol: " +:+ str_exn e))).
End Create.

(** *** [stream_protocol] *)

Definition completed_or_awaiting (st : string) : bool :=
  String.eqb st "completed" || String.eqb st "awaiting_approval".

Definition is_paused (v : ProtocolState) : bool :=
  halted v || String.eqb (status v) "awaiting_approval".

(** [agent_notes[-1].get("note", "")], the empty string without notes. *)
Definition agent_thought_of (full_state : option ProtocolState) : string :=
  match full_state with
  | Some v =>
      match last (agent_notes v) with
      | Some n => note n
      | None => ""
      end
  | None => ""
  end.

Section Stream.
Variable engine : Engine.
(** [clock i] is the [i]-th reading of [datetime.now()] made by the call. *)
Variable clock : nat -> datetime.

(** The inner [for node_name, state_update in event.items()] loop, for an
    event found with the world [w]: a [state_update] per node, and a
    [halted] event followed by [break] once the state is paused. *)
Fixpoint stream_nodes (tick : nat) (sid : string) (w : World)
    (nodes : list string) : nat * list SSE :=
  match nodes with
  | [] => (tick, [])
  | node_name :: rest =>
      let full_state := checkpoints w !! sid in
      let upd :=
        ev_state_update node_name full_state (agent_thought_of full_state)
          (full_state ≫= active_agent) (clock tick) in
      if default false (is_paused <$> full_state)
      then (S (S tick),
            [upd; ev_halted full_state "Workflow paused for human review"
                    (clock (S tick))])
      else
        let '(tick', evs) := stream_nodes (S tick) sid w rest in
        (tick', upd :: evs)
  end.

(** The outer [async for event in workflow.astream(...)] loop. *)
Fixpoint stream_updates (tick : nat) (sid : string)
    (events : list (list string * World)) : nat * list SSE :=
  match events with
  | [] => (tick, [])
  | (nodes, w_ev) :: rest =>
      let '(tick1, evs1) := stream_nodes tick sid w_ev nodes in
      let '(tick2, evs2) := stream_updates tick1 sid rest in
      (tick2, evs1 ++ evs2)
  end.

(** From "Stream workflow execution" to the final [complete] event. *)
Definition stream_run (tick : nat) (sid : string)
    (initial_state : ProtocolState) (w : World) : World * list SSE :=
  let '(tick1, w1, evs, raised) :=
    if negb (completed_or_awaiting (status initial_state))
    then
      let '(events, w_end, raised) := astream engine w sid in
      let '(tick1, evs) := stream_updates tick sid events in
      (tick1, w_end, evs, raised)
    else (tick, w, [], None) in
  match raised with
  | Some e => (w1, evs ++ [ev_error (str_exn e)])
  | None => (w1, evs ++ [ev_complete (checkpoints w1 !! sid) (clock tick1)])
  end.

(** [event_generator] of [stream_protocol]: the events it yields, in
    order, and the world it leaves. *)
Definition stream_protocol (sid : string) (w : World) : World * list SSE :=
  match checkpoints w !! sid with
  | Some values =>
      if String.eqb (status values) "completed"
      then (w, [ev_complete (Some values) (clock 0)])
      else if is_paused values
      then (w, [ev_halted (Some values) "Workflow paused for human review"
                  (clock 0)])
      else if String.eqb (status values) "initializing"
      then stream_run 0 sid values w
      else if is_paused values
      then (w, [ev_halted (Some values)
                  "Workflow is already paused for human review" (clock 0)])
      else stream_run 0 sid values w
  | None =>
      match session_intents w !! sid with
      | Some user_intent =>
          let initial_state := create_initial_state (clock 0) user_intent sid 5 in
          match aupdate_state sid initial_state w with
          | (w1, Return _) =>
              stream_run 1 sid initial_state (fst (intents_pop sid w1))
          | (w1, Raise e) => (w1, [ev_error (str_exn e)])
          end
      | None =>
          (w, [ev_error
                 "No initial state found. Please create protocol first using /api/protocols/create endpoint."])
      end
  end.
End Stream.

(** *** [approve_protocol] and [halt_protocol] *)

Section Approval.
Variable engine : Engine.
Variable clock : nat -> datetime.

(** From [updated_state = current_state.values.copy()] to the assignment
    of [status]: the state that [approve_protocol] persists. *)
Definition approve_update (current : ProtocolState) (request : ApproveRequest)
    : result ProtocolState :=
  let updated_state := current in
  edited <-
    (if truthy_str (approved_content request)
     then
       let approved := default "" (approved_content request) in
       match current_draft current with
       | None => Raise (AttributeError "'NoneType' object has no attribute 'strip'")
       | Some current_draft =>
           if negb (String.eqb (strip approved) (strip current_draft))
           then Return (set_human_edits (Some approved)
                          (set_current_draft (Some approved) updated_state),
                        true)
           else Return (updated_state, false)
       end
     else Return (updated_state, false)) ;;
  let '(updated_state, has_edits) := edited in
  let approval_message :=
    "Protocol approved and finalized" +:+
    (if has_edits : bool then " (with edits)" else "") in
  let updated_state :=
    add_agent_note (clock 0) (clock 1) updated_state "Human" approval_message
      None "info" in
  let updated_state := set_human_approved true updated_state in
  let updated_state := set_halted false updated_state in
  Return (set_status "approved" updated_state).

(** From "Resume workflow" to the response. *)
Definition approve_resume (sid : string) : io ApproveResponse :=
  res <~ ainvoke engine sid ;;
  res <~ (if String.eqb (status res) "completed"
          then
            let res :=
              add_agent_note (clock 2) (clock 3) res "System"
                "Protocol generation completed successfully" None "info" in
            _ <~ aupdate_state sid res ;; io_ret res
          else io_ret res) ;;
  io_ret {| ar_session_id := sid;
            ar_status := "approved";
            ar_message := "Protocol approved and workflow resumed";
            ar_final_state := res |}.

(** The body of the [try] in [approve_protocol]. *)
Definition approve_body (sid : string) (request : ApproveRequest)
    : io ApproveResponse :=
  current_state <~ aget_state sid ;;
  match current_state with
  | None => io_raise (HTTPException 404 "Session not found")
  | Some values =>
      updated_state <~ io_lift (approve_update values request) ;;
      _ <~ aupdate_state sid updated_state ;;
      approve_resume sid
  end.

Definition approve_protocol (sid : string) (request : ApproveRequest)
    : io ApproveResponse :=
  io_try (approve_body sid request)
         (fun e => io_raise (HTTPException 500 (str_exn e))).

(** The state that [halt_protocol] persists. *)
Definition halt_update (current : ProtocolState) : ProtocolState :=
  let updated_state := current in
  let updated_state := set_status "awaiting_approval" updated_state in
  let updated_state := set_halted true updated_state in
  add_agent_note (clock 0) (clock 1) updated_state "Human"
    "Workflow halted for review" None "warning".

Definition halt_body (sid : string) : io HaltResponse :=
  current_state <~ aget_state sid ;;
  match current_state with
  | None => io_raise (HTTPException 404 "Session not found")
  | Some values =>
      let updated_state := halt_update values in
      _ <~ aupdate_state sid updated_state ;;
      io_ret {| hr_session_id := sid;
                hr_status := "halted";
                hr_current_draft := current_draft updated_state;
                hr_message := "Workflow paused for human review" |}
  end.

Definition halt_protocol (sid : string) : io HaltResponse :=
  io_try (halt_body sid)
         (fun e => io_raise (HTTPException 500 (str_exn e))).
End Approval.

End Main.
Export Main.

(** ** The specification's reading of the router and of the draft history *)

Module Table.

(** A row of a decision table: a guard and the decision taken under it. *)
Definition row : Type := (ProtocolState -> bool) * (ProtocolState -> Route).

(** Rows are tried in order; the first whose guard holds decides. *)
Fixpoint first_match (rows : list row) (fallback : Route) (s : ProtocolState)
    : Route :=
  match rows with
  | [] => fallback
  | (guard, decision) :: rows' =>
      if guard s then decision s else first_match rows' fallback s
  end.

(** [active_agent] names the step that wrote last. *)
Definition after (agent : string) (s : ProtocolState) : bool :=
  opt_str_eqb (active_agent s) agent.

(** Row 6: the supervisor's verdict, read from [status]. *)
Definition verdict (s : ProtocolState) : Route :=
  if str_in "needs_revision" (status s) then to_draft
  else if str_in "ready_for_review" (status s)
          || str_in "awaiting_review" (status s) then to_halt
  else to_end.

(** Rows 1 to 7 of the table of section 4.3, with the code's agent names for
    the step identifiers; [absent] is the test of row 7. *)
Definition rows (absent : option string -> bool) : list row :=
  [ (halted, fun _ => to_halt);
    (human_approved, fun _ => to_end);
    (after "Drafter", fun _ => to_safety_review);
    (after "SafetyGuardian", fun _ => to_clinical_critique);
    (after "ClinicalCritic", fun _ => to_supervisor);
    (after "Supervisor", verdict);
    (fun s => absent (current_draft s), fun _ => to_draft) ].

(** Row 7 as the specification words it: the optional draft is absent. *)
Definition is_absent (o : option string) : bool :=
  match o with
  | None => true
  | Some _ => false
  end.

(** Row 7 as Python's [not] reads it: absent, or the empty string. *)
Definition absent_or_empty (o : option string) : bool := negb (truthy_str o).

(** The table with row 8 as the fallback. *)
Definition decide (absent : option string -> bool) : ProtocolState -> Route :=
  first_match (rows absent) to_supervisor.

End Table.

(** The states in which the table selects [draft]: not halted, not
    approved, no earlier agent named, and either the supervisor asked for a
    revision (row 6) or no agent is named and there is no draft (row 7). *)
Definition would_draft (s : ProtocolState) : bool :=
  negb (halted s) && negb (human_approved s) &&
  negb (Table.after "Drafter" s) && negb (Table.after "SafetyGuardian" s) &&
  negb (Table.after "ClinicalCritic" s) &&
  (if Table.after "Supervisor" s
   then str_in "needs_revision" (status s)
   else Table.absent_or_empty (current_draft s)).

(** One change of a state that touches the draft history only through
    [add_draft_version]. *)
Inductive history_step : ProtocolState -> ProtocolState -> Prop :=
  | hs_append t_draft t_upd s c author ss es cs :
      history_step s (add_draft_version t_draft t_upd s c author ss es cs)
  | hs_other s s' :
      draft_history s' = draft_history s ->
      current_version s' = current_version s ->
      history_step s s'.

(** The states reached from an initial state by such changes. *)
Inductive appends_only : ProtocolState -> Prop :=
  | ao_initial now ui sid mi : appends_only (create_initial_state now ui sid mi)
  | ao_step s s' : appends_only s -> history_step s s' -> appends_only s'.

(** What a history that was only appended to looks like: the version
    counter is the length of the history, and the record at index [i]
    carries version [i + 1]. *)
Definition numbered (s : ProtocolState) : Prop :=
  current_version s = Z.of_nat (length (draft_history s)) /\
  forall (i : nat) (d : ProtocolDraft),
    draft_history s !! i = Some d -> version d = Z.of_nat i + 1.

(** "Differing after trimming", for the approved content and the draft. *)
Definition differs_after_trim (approved current : string) : bool :=
  negb (String.eqb (strip approved) (strip current)).

(** The marker of an approval note. *)
Definition with_edits_marker (n : AgentNote) : bool :=
  str_in "(with edits)" (note n).

(** ** Sample inputs *)

Module Sample.

Definition clock0 : nat -> datetime := fun i => Z.of_nat i.

(** A drafter that writes, reviewers that add nothing, and a supervisor that
    always asks for a revision and never halts. *)
Definition revising : Agents :=
  {| drafter_draft := fun _ =>
       Return (mkDraftResult (Some (Some "Breathe in. Breathe out.")) None None);
     safety_guardian_review := fun _ => Return (mkReviewResult None None None);
     clinical_critic_critique := fun _ => Return (mkCritiqueResult None None None);
     supervisor_decide := fun _ =>
       Return (mkDecisionResult (Some "needs_revision") None) |}.

(** The same agents with a drafter whose call fails. *)
Definition drafter_down : Agents :=
  {| drafter_draft := fun _ => Raise (ExternalError "model call failed");
     safety_guardian_review := safety_guardian_review revising;
     clinical_critic_critique := clinical_critic_critique revising;
     supervisor_decide := supervisor_decide revising |}.

Definition fresh : ProtocolState :=
  create_initial_state 0 "sleep hygiene" "s1" 5.

(** A state at the iteration cap in which the supervisor asks for more. *)
Definition at_cap : ProtocolState :=
  set_status "needs_revision"
    (set_active_agent (Some "Supervisor")
       (set_iteration_count 5
          (set_current_version 5
             (set_current_draft (Some "Breathe in.") fresh)))).

(** A state without an agent name whose draft is the empty string. *)
Definition empty_draft : ProtocolState :=
  set_current_draft (Some "") fresh.

(** A state paused after its first draft, and the same state completed. *)
Definition drafted : ProtocolState :=
  add_draft_version 1 2 (set_iteration_count 1 fresh) "Breathe in." "Drafter"
    None None None.

Definition paused : ProtocolState :=
  set_status "awaiting_approval" (set_halted true drafted).

Definition finished : ProtocolState := set_status "completed" drafted.

Definition no_engine : Engine :=
  {| astream := fun w _ => ([], w, None);
     ainvoke := fun _ => io_raise (ExternalError "engine not started") |}.

(** An engine whose resumed run finishes at once with the stored state
    marked completed. *)
Definition finishing_engine : Engine :=
  {| astream := fun w _ => ([], w, None);
     ainvoke := fun sid w =>
       match checkpoints w !! sid with
       | Some v =>
           let v' := set_status "completed" v in
           (set_checkpoints (<[sid := v']> (checkpoints w)) w, Return v')
       | None => (w, Raise (ExternalError "no checkpoint"))
       end |}.

Definition empty_world : World :=
  {| checkpoints := ∅; session_intents := ∅; background_tasks := [];
     store_writable := true |}.

(** A world whose checkpoint store refuses updates. *)
Definition store_down : World :=
  {| checkpoints := ∅; session_intents := ∅; background_tasks := [];
     store_writable := false |}.

Definition with_session (v : ProtocolState) : World :=
  set_checkpoints {[ "s1" := v ]} empty_world.

Definition request_s1 : ProtocolRequest :=
  {| intent := "sleep hygiene"; req_session_id := Some "s1" |}.

Definition repr0 : datetime -> string := fun _ => "0.0".

End Sample.

(** ** main.py: [serialize_state_for_json] *)

Module Serialize.

(** The Python values that a state dictionary can hold.  A dictionary is the
    list of its items in insertion order. *)
#[warnings="-register-all"]
Inductive pyval :=
  | PNone
  | PBool (b : bool)
  | PInt (z : Z)
  | PFloat (f : float)
  | PStr (s : string)
  | PDatetime (d : datetime)
  | PList (l : list pyval)
  | PDict (items : list (string * pyval)).

Section Conversion.
(** [datetime.isoformat()]. *)
Variable isoformat : datetime -> string.

(** The body of the loop of [serialize_state_for_json] for one value: a
    datetime becomes its ISO text, a dictionary is serialized in turn, a
    list is rebuilt item by item (dictionaries serialized, datetimes
    converted, anything else kept as it is), any other value is kept. *)
Fixpoint serialize_value (value : pyval) : pyval :=
  match value with
  | PDatetime d => PStr (isoformat d)
  | PDict items =>
      PDict (map (fun kv => (fst kv, serialize_value (snd kv))) items)
  | PList l =>
      PList (map (fun item =>
                    match item with
                    | PDict _ => serialize_value item
                    | PDatetime d => PStr (isoformat d)
                    | _ => item
                    end) l)
  | _ => value
  end.

(** [serialize_state_for_json(state)]; [None] and the empty dictionary give
    the empty dictionary. *)
Definition serialize_state_for_json (state : option (list (string * pyval)))
    : list (string * pyval) :=
  match state with
  | None => []
  | Some items => map (fun kv => (fst kv, serialize_value (snd kv))) items
  end.
End Conversion.

(** Whether a datetime occurs anywhere in a value. *)
Fixpoint has_datetime (v : pyval) : bool :=
  match v with
  | PDatetime _ => true
  | PList l => existsb has_datetime l
  | PDict items => existsb (fun kv => has_datetime (snd kv)) items
  | _ => false
  end.

(** Whether every list that is itself an item of a list is free of
    datetimes. *)
Fixpoint inner_lists_plain (v : pyval) : bool :=
  match v with
  | PList l =>
      forallb (fun item =>
                 match item with
                 | PList _ => negb (has_datetime item)
                 | _ => inner_lists_plain item
                 end) l
  | PDict items => forallb (fun kv => inner_lists_plain (snd kv)) items
  | _ => true
  end.

End Serialize.
Export Serialize.

(** ** agents/workflow.py: the database path of [get_checkpointer] *)

Module Checkpointer.

(** [s.replace(old, "")] for a non-empty [old]: the occurrences of [old]
    are removed from left to right, without overlap.  [skip] counts the
    characters of the occurrence being removed that are still to drop. *)
Fixpoint remove_all (old s : string) (skip : nat) : string :=
  match s with
  | EmptyString => EmptyString
  | String c s' =>
      match skip with
      | S k => remove_all old s' k
      | O =>
          if String.prefix old s
          then remove_all old s' (String.length old - 1)
          else String c (remove_all old s' 0)
      end
  end.

(** The path that [get_checkpointer] and [init_checkpointer_async] open:
    the value of [DATABASE_URL] (the default when unset), with the text
    "sqlite:///" removed when the value starts with it. *)
Definition database_path (database_url : option string) : string :=
  let db_path := default "sqlite:///./cerina_foundry.db" database_url in
  if String.prefix "sqlite:///" db_path
  then remove_all "sqlite:///" db_path 0
  else db_path.

End Checkpointer.

(** ** Invariants and predicates used in the statements *)

(** What every state of a run satisfies: the version counter is the length
    of the history and never runs ahead of the iteration counter, and every
    record was made at an iteration that is at least its version. *)
Definition run_invariant (s : ProtocolState) : Prop :=
  0 <= current_version s <= iteration_count s /\
  current_version s = Z.of_nat (length (draft_history s)) /\
  Forall (fun d => version d <= iteration d <= iteration_count s)
         (draft_history s).

(** The fields that no node assigns. *)
Definition same_session (s s' : ProtocolState) : Prop :=
  user_intent s' = user_intent s /\
  session_id s' = session_id s /\
  max_iterations s' = max_iterations s /\
  start_time s' = start_time s /\
  human_approved s' = human_approved s /\
  human_edits s' = human_edits s.

(** The events that end a stream. *)
Definition is_terminal (e : SSE) : bool :=
  match e with
  | ev_complete _ _ | ev_halted _ _ _ | ev_error _ => true
  | ev_state_update _ _ _ _ _ => false
  end.

(** The message of a [halted] event is the one of a pause found by the
    stream; other events pass. *)
Definition paused_message (e : SSE) : Prop :=
  match e with
  | ev_halted _ message _ => message = "Workflow paused for human review"
  | _ => True
  end.

(** Leaving the notes [ns] on the blackboard one after the other, each with
    its own time stamp; [t_upd] stamps the state. *)
Definition leave_notes (t_upd : datetime) (ns : list AgentNote)
    (s : ProtocolState) : ProtocolState :=
  fold_left
    (fun st n =>
       add_agent_note (note_timestamp n) t_upd st (agent_name n) (note n)
         (target_agent n) (priority n))
    ns s.

(** * Properties *)

(** ** Field updates *)

Lemma set_halted_same (s : ProtocolState) : set_halted (halted s) s = s.
Proof. by destruct s. Qed.

(** ** The router *)

(** Which fields [should_continue] reads: two states that agree on them get
    the same decision. *)
Lemma route_reads (s1 s2 : ProtocolState) :
  halted s1 = halted s2 ->
  human_approved s1 = human_approved s2 ->
  active_agent s1 = active_agent s2 ->
  status s1 = status s2 ->
  current_draft s1 = current_draft s2 ->
  route s1 = route s2.
Proof.
  intros Hh Ha Hg Hs Hd. unfold route, should_continue.
  rewrite Hh, Ha, Hg, Hs, Hd.
  repeat match goal with |- context [if ?b then _ else _] => destruct b end;
    reflexivity.
Qed.

(** C9. [should_continue] is a function of the state alone and leaves the
    dictionary it is given as it found it: the state after the call equals
    the state before it in every field, and equal states get equal
    decisions (states that agree on [halted], [human_approved],
    [active_agent], [status] and [current_draft] already do).
    The assignment [state["halted"] = False] of the approved branch is
    reached only when [halted] is already false, so it stores the value
    that is there. *)
Theorem should_continue_pure :
  (forall s : ProtocolState, snd (should_continue s) = s) /\
  (forall s1 s2 : ProtocolState,
      s1 = s2 -> fst (should_continue s1) = fst (should_continue s2)) /\
  (forall s1 s2 : ProtocolState,
      halted s1 = halted s2 ->
      human_approved s1 = human_approved s2 ->
      active_agent s1 = active_agent s2 ->
      status s1 = status s2 ->
      current_draft s1 = current_draft s2 ->
      fst (should_continue s1) = fst (should_continue s2)).
Proof.
  split; [|split].
  - intros s. unfold should_continue.
    destruct (halted s) eqn:Hh; [reflexivity|].
    destruct (human_approved s); simpl.
    + rewrite <- Hh. apply set_halted_same.
    + repeat match goal with |- context [if ?b then _ else _] => destruct b end;
        reflexivity.
  - intros s1 s2 ->. reflexivity.
  - apply route_reads.
Qed.

Lemma should_continue_pure_witness :
  snd (should_continue Sample.at_cap) = Sample.at_cap /\
  fst (should_continue Sample.at_cap) = fst (should_continue Sample.at_cap) /\
  fst (should_continue (set_iteration_count 9 Sample.at_cap))
  = fst (should_continue Sample.at_cap).
Proof.
  destruct should_continue_pure as (Hsame & Hdet & Hreads).
  split; [apply Hsame|]. split.
  - apply (Hdet Sample.at_cap Sample.at_cap). reflexivity.
  - apply (Hreads (set_iteration_count 9 Sample.at_cap) Sample.at_cap);
      reflexivity.
Defined.

(** C2, as the specification words row 7: refuted.  With no agent named and
    the empty string as draft, the draft is present, so the table reaches
    row 8 and selects the supervisor; [should_continue] selects [draft]. *)
Lemma table_as_worded_refuted :
  route Sample.empty_draft = to_draft /\
  Table.decide Table.is_absent Sample.empty_draft = to_supervisor /\
  route Sample.empty_draft <> Table.decide Table.is_absent Sample.empty_draft.
Proof. repeat split; try reflexivity. vm_compute. discriminate. Qed.

(** C2, amended.  [should_continue] decides by the table of section 4.3, rows
    tried in order and the first match winning, where row 7 holds when
    [current_draft] is absent or is the empty string. *)
Theorem should_continue_table (s : ProtocolState) :
  route s = Table.decide Table.absent_or_empty s.
Proof.
  unfold route, should_continue, Table.decide, Table.rows, Table.first_match,
    Table.after, Table.verdict, Table.absent_or_empty.
  repeat match goal with |- context [if ?b then _ else _] => destruct b end;
    reflexivity.
Qed.

(** [should_continue] selects [draft] in the states of [would_draft], and in
    no others. *)
Lemma route_draft_iff (s : ProtocolState) :
  route s = to_draft <-> would_draft s = true.
Proof.
  unfold route, should_continue, would_draft, Table.after, Table.absent_or_empty.
  destruct (halted s), (human_approved s), (opt_str_eqb (active_agent s) "Drafter"),
    (opt_str_eqb (active_agent s) "SafetyGuardian"),
    (opt_str_eqb (active_agent s) "ClinicalCritic"),
    (opt_str_eqb (active_agent s) "Supervisor"),
    (str_in "needs_revision" (status s)),
    (str_in "ready_for_review" (status s) || str_in "awaiting_review" (status s)),
    (truthy_str (current_draft s)); simpl; split; congruence.
Qed.

Lemma draft_node_iteration_count (agents : Agents) (t_draft t_upd : datetime)
    (s : ProtocolState) (res : DraftResult) :
  drafter_draft agents s = Return res ->
  iteration_count (fst (draft_node agents t_draft t_upd s)) = iteration_count s + 1.
Proof.
  intros Hres. unfold draft_node. rewrite Hres. clear Hres.
  destruct s, res as [[cd|] aa st]; cbn;
    repeat match goal with
           | |- context [match ?o with Some _ => _ | None => _ end] =>
               destruct o; cbn
           | |- context [if ?b then _ else _] => destruct b; cbn
           end; reflexivity.
Qed.

(** C1, as stated: refuted.  At the cap (five iterations of five) with the
    supervisor asking for a revision, [should_continue] returns [draft], not
    [halt]; and a run whose supervisor keeps asking, started from an initial
    state with [max_iterations = 1], writes a state with
    [iteration_count = 2]. *)
Lemma router_cap_refuted :
  (iteration_count Sample.at_cap >= max_iterations Sample.at_cap) /\
  would_draft Sample.at_cap = true /\
  route Sample.at_cap = to_draft /\
  route Sample.at_cap <> to_halt /\
  (let run :=
     run_graph Sample.revising Sample.clock0 5 0 entry_point
       (create_initial_state 0 "sleep hygiene" "s1" 1) in
   map iteration_count run = [1; 1; 1; 1; 2] /\
   map max_iterations run = [1; 1; 1; 1; 1]).
Proof.
  split; [vm_compute; discriminate|].
  split; [reflexivity|].
  split; [reflexivity|].
  split; [vm_compute; discriminate|].
  split; vm_compute; reflexivity.
Qed.

(** C1, amended.  [should_continue] does not read [iteration_count] or
    [max_iterations]: its decision is the same whatever their values.  It
    returns [draft] exactly in the states in which the table selects
    [draft] (not halted, not approved, and either the supervisor asked for a
    revision or no agent is named and the draft is absent or empty), at the
    cap as below it.  A draft step whose drafter returns adds one to
    [iteration_count]. *)
Theorem router_has_no_cap :
  (forall (s : ProtocolState) (ic mi : Z),
      route (set_iteration_count ic (set_max_iterations mi s)) = route s) /\
  (forall s : ProtocolState, route s = to_draft <-> would_draft s = true) /\
  (forall (agents : Agents) (t_draft t_upd : datetime) (s : ProtocolState)
          (res : DraftResult),
      drafter_draft agents s = Return res ->
      iteration_count (fst (draft_node agents t_draft t_upd s))
      = iteration_count s + 1).
Proof.
  split; [|split].
  - intros s ic mi. apply route_reads; by destruct s.
  - intros s. apply route_draft_iff.
  - apply draft_node_iteration_count.
Qed.

Lemma router_has_no_cap_witness :
  route (set_iteration_count 7 (set_max_iterations 3 Sample.at_cap))
  = route Sample.at_cap /\
  (would_draft Sample.at_cap = true /\ route Sample.at_cap = to_draft) /\
  iteration_count (fst (draft_node Sample.revising 1 2 Sample.at_cap)) = 5 + 1.
Proof.
  destruct router_has_no_cap as (Hread & Hdraft & Hcount).
  split; [apply Hread|].
  split.
  - split; [reflexivity|]. apply (proj2 (Hdraft Sample.at_cap)). reflexivity.
  - apply (Hcount Sample.revising 1 2 Sample.at_cap
             (mkDraftResult (Some (Some "Breathe in. Breathe out.")) None None)).
    reflexivity.
Defined.

(** ** The draft history *)

Lemma add_draft_version_fields (t_draft t_upd : datetime) (s : ProtocolState)
    (c author : string) (ss es cs : option float) :
  let s' := add_draft_version t_draft t_upd s c author ss es cs in
  draft_history s' =
    draft_history s ++
    [mkDraft c (current_version s + 1) (iteration_count s) author t_draft
       ss es cs []] /\
  current_version s' = current_version s + 1 /\
  current_draft s' = Some c /\
  last_update s' = t_upd /\
  iteration_count s' = iteration_count s.
Proof. destruct s. cbn. repeat split. Qed.

Lemma numbered_initial (now : datetime) (ui sid : string) (mi : Z) :
  numbered (create_initial_state now ui sid mi).
Proof. split; [reflexivity|]. intros i d. cbn. by rewrite lookup_nil. Qed.

Lemma numbered_step (s s' : ProtocolState) :
  numbered s -> history_step s s' -> numbered s'.
Proof.
  intros [Hlen Hver] Hstep. destruct Hstep as [t1 t2 s c a ss es cs|s s' Hh Hv].
  - destruct (add_draft_version_fields t1 t2 s c a ss es cs)
      as (Hh & Hv & _).
    split.
    + rewrite Hv, Hh, length_app, Hlen. cbn. lia.
    + intros i d. rewrite Hh. intros Hi.
      apply lookup_app_Some in Hi as [Hi|[Hge Hi]]; [by apply Hver|].
      destruct (i - length (draft_history s))%nat as [|k] eqn:Hk;
        [|by rewrite lookup_cons, lookup_nil in Hi].
      cbn in Hi. injection Hi as <-. cbn. rewrite Hlen. lia.
  - split; [by rewrite Hv, Hh|]. intros i d. rewrite Hh. apply Hver.
Qed.

Lemma appends_only_numbered (s : ProtocolState) : appends_only s -> numbered s.
Proof.
  induction 1 as [now ui sid mi|s s' _ IH Hstep].
  - apply numbered_initial.
  - by apply numbered_step with s.
Qed.

(** The nodes of the graph change the history through [add_draft_version]
    only, so every state of a run that starts from an initial state is in
    [appends_only]. *)
Lemma run_node_appends_only (agents : Agents) (clock : nat -> datetime)
    (tick : nat) (n : Node) (s : ProtocolState) :
  appends_only s -> appends_only (fst (run_node agents clock tick n s)).
Proof.
  intros Hs.
  assert (Hother : forall s', draft_history s' = draft_history s ->
                              current_version s' = current_version s ->
                              appends_only s').
  { intros s' Hh Hv. apply ao_step with s; [done|by apply hs_other]. }
  destruct n; cbn.
  - unfold draft_node. destruct (drafter_draft agents s) as [res|e]; [|done].
    cbn. set (s1 := set_iteration_count _ _).
    assert (H1 : appends_only s1) by (apply Hother; by destruct s).
    destruct (current_draft s1) as [c|]; [|done].
    match goal with |- context [if ?b then _ else _] => destruct b end; [|done].
    apply ao_step with s1; [done|apply hs_append].
  - unfold safety_review_node.
    destruct (safety_guardian_review agents s) as [res|e]; [|done].
    apply Hother; destruct s, (sr_safety_checks res), (sr_safety_score res);
      reflexivity.
  - unfold clinical_critique_node.
    destruct (clinical_critic_critique agents s) as [res|e]; [|done].
    apply Hother; destruct s, (cr_empathy_score res), (cr_clinical_score res);
      reflexivity.
  - unfold supervisor_node.
    destruct (supervisor_decide agents s) as [res|e]; [|done].
    apply Hother; destruct s, (default false (dr_halted res)); reflexivity.
Qed.

(** C3. [add_draft_version] appends exactly one record, with version
    [current_version + 1] and the state's [iteration_count], makes that
    version the current one, makes the content the current draft and sets
    [last_update] to the clock reading.  Hence in every state reached from
    an initial state by changes that touch the history only through this
    operation, the record at index [i] has version [i + 1], and versions
    increase strictly along the history. *)
Theorem add_draft_version_numbering :
  (forall (t_draft t_upd : datetime) (s : ProtocolState) (c author : string)
          (ss es cs : option float),
      let s' := add_draft_version t_draft t_upd s c author ss es cs in
      draft_history s' =
        draft_history s ++
        [mkDraft c (current_version s + 1) (iteration_count s) author t_draft
           ss es cs []] /\
      current_version s' = current_version s + 1 /\
      current_draft s' = Some c /\
      last_update s' = t_upd) /\
  (forall s : ProtocolState,
      appends_only s ->
      (forall (i : nat) (d : ProtocolDraft),
          draft_history s !! i = Some d -> version d = Z.of_nat i + 1) /\
      (forall (i j : nat) (di dj : ProtocolDraft),
          (i < j)%nat ->
          draft_history s !! i = Some di ->
          draft_history s !! j = Some dj ->
          version di < version dj)).
Proof.
  split.
  - intros t1 t2 s c a ss es cs.
    destruct (add_draft_version_fields t1 t2 s c a ss es cs)
      as (Hh & Hv & Hd & Hu & _).
    by repeat split.
  - intros s Hs. destruct (appends_only_numbered s Hs) as [_ Hver].
    split; [exact Hver|].
    intros i j di dj Hij Hi Hj.
    rewrite (Hver i di Hi), (Hver j dj Hj). lia.
Qed.

Lemma add_draft_version_numbering_witness :
  let s :=
    add_draft_version 3 4 Sample.drafted "Breathe out." "Drafter" None None None in
  appends_only s /\
  map version (draft_history s) = [1; 2] /\
  (forall (i : nat) (d : ProtocolDraft),
      draft_history s !! i = Some d -> version d = Z.of_nat i + 1).
Proof.
  assert (H0 : appends_only Sample.drafted).
  { apply ao_step with (set_iteration_count 1 Sample.fresh).
    - apply ao_step with Sample.fresh; [apply ao_initial|].
      apply hs_other; reflexivity.
    - apply hs_append. }
  assert (H1 : appends_only
                 (add_draft_version 3 4 Sample.drafted "Breathe out." "Drafter"
                    None None None)).
  { apply ao_step with Sample.drafted; [exact H0|apply hs_append]. }
  split; [exact H1|]. split; [reflexivity|].
  exact (proj1 (proj2 add_draft_version_numbering _ H1)).
Defined.

(** ** A failing drafter *)

(** C5. When the call to the drafter raises, [draft_node] raises the same
    exception and leaves the dictionary it was given exactly as it was
    (every field, so [iteration_count], [current_draft], [draft_history],
    [status] and [active_agent] too); the run stops there and writes no
    checkpoint, so the last checkpoint written stays the latest. *)
Theorem draft_node_failure (agents : Agents) (t_draft t_upd : datetime)
    (s : ProtocolState) (e : exn) :
  drafter_draft agents s = Raise e ->
  draft_node agents t_draft t_upd s = (s, Some e) /\
  (forall (clock : nat -> datetime) (tick : nat),
      graph_step agents clock tick draft s = Raise e) /\
  (forall (clock : nat -> datetime) (fuel tick : nat),
      run_graph agents clock fuel tick draft s = []).
Proof.
  intros Hraise.
  assert (Hnode : forall t1 t2, draft_node agents t1 t2 s = (s, Some e)).
  { intros t1 t2. unfold draft_node. by rewrite Hraise. }
  assert (Hstep : forall clock tick,
             graph_step agents clock tick draft s = Raise e).
  { intros clock tick. unfold graph_step, run_node. by rewrite Hnode. }
  split; [apply Hnode|]. split; [exact Hstep|].
  intros clock [|fuel] tick; [reflexivity|].
  cbn [run_graph]. by rewrite Hstep.
Qed.

Lemma draft_node_failure_witness :
  draft_node Sample.drafter_down 1 2 Sample.drafted
  = (Sample.drafted, Some (ExternalError "model call failed")) /\
  run_graph Sample.drafter_down Sample.clock0 4 0 draft Sample.drafted = [].
Proof.
  destruct (draft_node_failure Sample.drafter_down 1 2 Sample.drafted
              (ExternalError "model call failed") eq_refl) as (Hnode & _ & Hrun).
  split; [exact Hnode|apply Hrun].
Defined.

(** ** Creating a session *)

(** C4, as stated: refuted.  With a checkpoint store that refuses the
    update, [create_protocol] still returns the session id: no checkpoint
    exists under it, and the intent is kept in [_session_intents]. *)
Lemma create_without_checkpoint :
  let out :=
    create_protocol Sample.repr0 0 1 2 Sample.request_s1 Sample.store_down in
  (exists resp, snd out = Return resp /\ resp_session_id resp = "s1") /\
  checkpoints (fst out) !! "s1" = None /\
  session_intents (fst out) !! "s1" = Some "sleep hygiene".
Proof.
  split; [eexists; split; reflexivity|]. split; vm_compute; reflexivity.
Qed.

(** C4, amended.  [create_protocol] always returns the session id and
    schedules the background run.  The seed state is written on a best
    effort: when the store accepts the update, the checkpoint under the
    session id is the initial state and the intent is removed from
    [_session_intents]; when the update raises, the checkpoints are as
    before and the intent stays in [_session_intents] under the session id,
    for [stream_protocol] to seed the session from. *)
Theorem create_protocol_best_effort (timestamp_repr : datetime -> string)
    (t_id t_state t_resp : datetime) (request : ProtocolRequest) (w : World) :
  let sid := new_session_id timestamp_repr t_id request in
  let out := create_protocol timestamp_repr t_id t_state t_resp request w in
  snd out =
    Return (mkProtocolResponse sid "initializing"
              "Protocol generation initialized. Workflow execution started."
              (Some t_resp)) /\
  background_tasks (fst out) = background_tasks w ++ [sid] /\
  if store_writable w
  then checkpoints (fst out)
       = <[sid := create_initial_state t_state (intent request) sid 5]>
           (checkpoints w) /\
       session_intents (fst out) !! sid = None
  else checkpoints (fst out) = checkpoints w /\
       session_intents (fst out) !! sid = Some (intent request).
Proof.
  intros sid out. subst out. unfold create_protocol. fold sid.
  unfold io_try, io_bind, io_ret, aupdate_state, intents_set, intents_pop,
    add_task. cbn.
  destruct (store_writable w); cbn; repeat split.
  - apply lookup_delete_eq.
  - apply lookup_insert_eq.
Qed.

(** After a create that could not write the checkpoint, the first
    [stream_protocol] that finds the store writable seeds the session from
    the kept intent and then streams the run. *)
Lemma stream_seeds_from_intent (engine : Engine) (clock : nat -> datetime)
    (sid user_intent : string) (w : World) :
  checkpoints w !! sid = None ->
  session_intents w !! sid = Some user_intent ->
  store_writable w = true ->
  let seed := create_initial_state (clock 0%nat) user_intent sid 5 in
  stream_protocol engine clock sid w =
    stream_run engine clock 1 sid seed
      (mkWorld (<[sid := seed]> (checkpoints w))
               (delete sid (session_intents w))
               (background_tasks w) true).
Proof.
  intros Hc Hi Hw. unfold stream_protocol, aupdate_state.
  rewrite Hc, Hi, Hw. cbn. unfold set_session_intents, set_checkpoints. cbn.
  by rewrite Hw.
Qed.

(** ** Approving *)

(** C6, as stated: refuted.  The empty string differs, after trimming, from
    the draft "Breathe in.", yet approving with it keeps the draft, leaves
    [human_edits] unset and writes a note without the marker: the guard
    [if request.approved_content] treats an empty content as none. *)
Lemma approve_empty_content_keeps_draft :
  differs_after_trim "" "Breathe in." = true /\
  exists v',
    approve_update Sample.clock0 Sample.paused (mkApproveRequest (Some ""))
    = Return v' /\
    current_draft Sample.paused = Some "Breathe in." /\
    current_draft v' = Some "Breathe in." /\
    human_edits v' = None /\
    with_edits_marker <$> last (agent_notes v') = Some false.
Proof.
  split; [reflexivity|]. eexists. split; [reflexivity|].
  repeat split.
Qed.

(** C6, amended.  For a state with a current draft, say that the approval
    carries edits when [approved_content] is given, is not empty and
    differs after trimming from the current draft.  Without edits,
    [approve_protocol] keeps [current_draft] and [human_edits] as they were
    (so [human_edits] stays unset if it was) and the note it appends has no
    "(with edits)" marker; with edits, [current_draft] and [human_edits]
    become the approved content and the note has the marker.  In both cases
    the state has [human_approved = true], [halted = false] and
    [status = "approved"], and it is this state that is written to the
    store before the run is resumed. *)
Theorem approve_update_outcome (clock : nat -> datetime) (v : ProtocolState)
    (request : ApproveRequest) (d : string) :
  current_draft v = Some d ->
  let edits :=
    truthy_str (approved_content request) &&
    differs_after_trim (default "" (approved_content request)) d in
  exists (v' : ProtocolState) (n : AgentNote),
    approve_update clock v request = Return v' /\
    agent_notes v' = agent_notes v ++ [n] /\
    agent_name n = "Human" /\
    with_edits_marker n = edits /\
    (if edits
     then current_draft v' = approved_content request /\
          human_edits v' = approved_content request
     else current_draft v' = current_draft v /\
          human_edits v' = human_edits v) /\
    human_approved v' = true /\ halted v' = false /\ status v' = "approved" /\
    (forall (engine : Engine) (sid : string) (w : World),
        checkpoints w !! sid = Some v ->
        store_writable w = true ->
        approve_body engine clock sid request w =
          approve_resume engine clock sid
            (set_checkpoints (<[sid := v']> (checkpoints w)) w)).
Proof.
  intros Hd edits.
  assert (Hcases :
    exists hv : ProtocolState * bool,
      approve_update clock v request =
        Return (set_status "approved"
                  (set_halted false
                     (set_human_approved true
                        (add_agent_note (clock 0%nat) (clock 1%nat) hv.1 "Human"
                           ("Protocol approved and finalized" +:+
                            (if hv.2 then " (with edits)" else ""))
                           None "info")))) /\
      hv.2 = edits /\
      hv.1 = if edits
             then set_human_edits (approved_content request)
                    (set_current_draft (approved_content request) v)
             else v).
  { subst edits. unfold approve_update, differs_after_trim. rewrite Hd.
    destruct request as [[a|]]; cbn [approved_content truthy_str default andb].
    - destruct (negb (String.eqb a "")); cbn [andb].
      + match goal with
        | |- context [if negb ?c then _ else _] => destruct c
        end; eexists (_, _); cbn; (split; [|split; reflexivity]); reflexivity.
      + eexists (_, _); cbn. (split; [|split; reflexivity]); reflexivity.
    - eexists (_, _); cbn. (split; [|split; reflexivity]); reflexivity. }
  destruct Hcases as ([u b] & Hv' & Hb & Hu). cbn [fst snd] in *. subst u b.
  match type of Hv' with _ = Return ?x => set (v' := x) in * end.
  assert (Hbody : forall (engine : Engine) (sid : string) (w : World),
             checkpoints w !! sid = Some v ->
             store_writable w = true ->
             approve_body engine clock sid request w =
               approve_resume engine clock sid
                 (set_checkpoints (<[sid := v']> (checkpoints w)) w)).
  { intros engine sid w Hc Hw.
    unfold approve_body, io_bind, io_lift, aget_state, aupdate_state.
    by rewrite Hc, Hv', Hw. }
  exists v',
    (mkNote "Human"
       ("Protocol approved and finalized" +:+
        (if edits then " (with edits)" else ""))
       None (clock 0%nat) "info").
  split; [exact Hv'|].
  clear Hv'. subst v'. clearbody edits.
  destruct edits, v; cbn [current_draft human_edits] in *;
    (repeat split; [..|exact Hbody]); reflexivity.
Qed.

Lemma approve_update_outcome_witness :
  exists (v' : ProtocolState) (n : AgentNote),
    approve_update Sample.clock0 Sample.paused
      (mkApproveRequest (Some "  Breathe out.  ")) = Return v' /\
    agent_notes v' = agent_notes Sample.paused ++ [n] /\
    with_edits_marker n = true /\
    current_draft v' = Some "  Breathe out.  " /\
    human_edits v' = Some "  Breathe out.  " /\
    human_approved v' = true /\ halted v' = false /\ status v' = "approved".
Proof.
  destruct (approve_update_outcome Sample.clock0 Sample.paused
              (mkApproveRequest (Some "  Breathe out.  ")) "Breathe in." eq_refl)
    as (v' & n & Hv & Hn & _ & Hm & [Hd He] & Ha & Hh & Hs & _).
  exists v', n. repeat split; assumption.
Defined.

(** A missing session leaves approve with the error of its [except] clause. *)
Lemma approve_missing_session (engine : Engine) (clock : nat -> datetime)
    (sid : string) (request : ApproveRequest) (w : World) :
  checkpoints w !! sid = None ->
  approve_body engine clock sid request w
  = (w, Raise (HTTPException 404 "Session not found")).
Proof.
  intros Hc. unfold approve_body, io_bind, aget_state, io_raise. by rewrite Hc.
Qed.

(** C8.  For a session id without a checkpoint, [approve_protocol] and
    [halt_protocol] raise the 404 "Session not found" inside their [try];
    the [except Exception] clause around it catches that exception too and
    raises status 500 with the text of the 404 as detail.  The caller gets
    the internal-error status, not 404.  Nothing is created or persisted:
    the world is as before. *)
Theorem missing_session_reported_500 (engine : Engine)
    (clock : nat -> datetime) (sid : string) (request : ApproveRequest)
    (w : World) :
  checkpoints w !! sid = None ->
  approve_protocol engine clock sid request w
  = (w, Raise (HTTPException 500 "404: Session not found")) /\
  halt_protocol clock sid w
  = (w, Raise (HTTPException 500 "404: Session not found")).
Proof.
  intros Hc. split.
  - unfold approve_protocol, io_try.
    by rewrite (approve_missing_session engine clock sid request w Hc).
  - unfold halt_protocol, io_try, halt_body, io_bind, aget_state, io_raise.
    by rewrite Hc.
Qed.

Lemma missing_session_reported_500_witness :
  approve_protocol Sample.no_engine Sample.clock0 "s2"
    (mkApproveRequest None) (Sample.with_session Sample.paused)
  = (Sample.with_session Sample.paused,
     Raise (HTTPException 500 "404: Session not found")) /\
  halt_protocol Sample.clock0 "s2" (Sample.with_session Sample.paused)
  = (Sample.with_session Sample.paused,
     Raise (HTTPException 500 "404: Session not found")).
Proof.
  apply (missing_session_reported_500 Sample.no_engine Sample.clock0 "s2"
           (mkApproveRequest None) (Sample.with_session Sample.paused)).
  vm_compute. reflexivity.
Defined.

(** C10.  For a stored state without a draft, approving with a non-empty
    content raises at [current_draft.strip()], before the note is added and
    before any call of the store or of the engine: the handler answers with
    status 500 and the world, and so the stored checkpoint with its
    [human_approved], [halted], [human_edits] and [agent_notes], is as
    before. *)
Theorem approve_without_draft (engine : Engine) (clock : nat -> datetime)
    (sid c : string) (w : World) (v : ProtocolState) :
  checkpoints w !! sid = Some v ->
  current_draft v = None ->
  c <> "" ->
  approve_update clock v (mkApproveRequest (Some c))
  = Raise (AttributeError "'NoneType' object has no attribute 'strip'") /\
  approve_protocol engine clock sid (mkApproveRequest (Some c)) w
  = (w, Raise (HTTPException 500 "'NoneType' object has no attribute 'strip'")) /\
  checkpoints
    (fst (approve_protocol engine clock sid (mkApproveRequest (Some c)) w))
    !! sid = Some v.
Proof.
  intros Hc Hd Hne.
  assert (Hupd : approve_update clock v (mkApproveRequest (Some c))
                 = Raise (AttributeError
                            "'NoneType' object has no attribute 'strip'")).
  { unfold approve_update. cbn [approved_content truthy_str].
    destruct (String.eqb_spec c ""); [contradiction|]. cbn [negb].
    by rewrite Hd. }
  assert (Hall : approve_protocol engine clock sid (mkApproveRequest (Some c)) w
                 = (w, Raise (HTTPException 500
                                "'NoneType' object has no attribute 'strip'"))).
  { unfold approve_protocol, io_try, approve_body, io_bind, io_lift, aget_state.
    by rewrite Hc, Hupd. }
  split; [exact Hupd|]. split; [exact Hall|]. by rewrite Hall.
Qed.

Lemma approve_without_draft_witness :
  approve_protocol Sample.finishing_engine Sample.clock0 "s1"
    (mkApproveRequest (Some "Breathe in.")) (Sample.with_session Sample.fresh)
  = (Sample.with_session Sample.fresh,
     Raise (HTTPException 500 "'NoneType' object has no attribute 'strip'")).
Proof.
  apply (approve_without_draft Sample.finishing_engine Sample.clock0 "s1"
           "Breathe in." (Sample.with_session Sample.fresh) Sample.fresh).
  - vm_compute. reflexivity.
  - reflexivity.
  - discriminate.
Defined.

(** ** Streaming a finished or paused session *)

(** C7, as stated: refuted.  Two calls on the same paused session yield
    events that differ: each carries the time of its own call. *)
Lemma replayed_events_differ :
  snd (stream_protocol Sample.no_engine (fun _ => 10) "s1"
         (Sample.with_session Sample.paused))
  <> snd (stream_protocol Sample.no_engine (fun _ => 20) "s1"
            (Sample.with_session Sample.paused)).
Proof. vm_compute. intros H. injection H as H. discriminate H. Qed.

(** C7, amended.  For a stored state that is completed, halted or awaiting
    approval, [stream_protocol] yields exactly one event and leaves the
    world as it was: a [complete] event for a completed state, a [halted]
    event otherwise, carrying the stored state and the time of the call.
    The engine is not consulted, so no node runs.  Calling again yields an
    event of the same name with the same state and message; only the
    timestamp is that of the later call. *)
Theorem stream_replays_snapshot (engine : Engine) (clock : nat -> datetime)
    (sid : string) (w : World) (v : ProtocolState) :
  checkpoints w !! sid = Some v ->
  status v = "completed" \/ halted v = true \/ status v = "awaiting_approval" ->
  stream_protocol engine clock sid w =
    (w, [if String.eqb (status v) "completed"
         then ev_complete (Some v) (clock 0%nat)
         else ev_halted (Some v) "Workflow paused for human review"
                (clock 0%nat)]) /\
  (forall (engine' : Engine) (clock' : nat -> datetime),
      let again :=
        stream_protocol engine' clock' sid
          (fst (stream_protocol engine clock sid w)) in
      fst again = w /\
      map event_name (snd again)
      = map event_name (snd (stream_protocol engine clock sid w)) /\
      map event_state (snd again) = [Some v] /\
      map event_timestamp (snd again) = [Some (clock' 0%nat)]).
Proof.
  intros Hc Hst.
  assert (Hone : forall eng clk,
             stream_protocol eng clk sid w =
               (w, [if String.eqb (status v) "completed"
                    then ev_complete (Some v) (clk 0%nat)
                    else ev_halted (Some v) "Workflow paused for human review"
                           (clk 0%nat)])).
  { intros eng clk. unfold stream_protocol, is_paused. rewrite Hc.
    destruct (String.eqb (status v) "completed") eqn:Hdone; [reflexivity|].
    destruct Hst as [Hs|[Hh|Hs]].
    - rewrite Hs in Hdone. discriminate Hdone.
    - by rewrite Hh.
    - rewrite Hs. cbn. by rewrite orb_true_r. }
  split; [apply Hone|].
  intros engine' clock' again. subst again.
  rewrite (Hone engine clock). cbn [fst snd]. rewrite (Hone engine' clock').
  cbn [fst snd]. destruct (String.eqb (status v) "completed"); by repeat split.
Qed.

Lemma stream_replays_snapshot_witness :
  stream_protocol Sample.no_engine Sample.clock0 "s1"
    (Sample.with_session Sample.paused)
  = (Sample.with_session Sample.paused,
     [ev_halted (Some Sample.paused) "Workflow paused for human review" 0]) /\
  stream_protocol Sample.no_engine Sample.clock0 "s1"
    (Sample.with_session Sample.finished)
  = (Sample.with_session Sample.finished,
     [ev_complete (Some Sample.finished) 0]).
Proof.
  split.
  - apply (stream_replays_snapshot Sample.no_engine Sample.clock0 "s1"
             (Sample.with_session Sample.paused) Sample.paused).
    + vm_compute. reflexivity.
    + right. left. reflexivity.
  - apply (stream_replays_snapshot Sample.no_engine Sample.clock0 "s1"
             (Sample.with_session Sample.finished) Sample.finished).
    + vm_compute. reflexivity.
    + left. reflexivity.
Defined.

(** * Further properties of the code *)

(** ** The blackboard notes *)

Lemma add_agent_note_fields (t_note t_upd : datetime) (s : ProtocolState)
    (agent text : string) (target : option string) (prio : string) :
  let s' := add_agent_note t_note t_upd s agent text target prio in
  agent_notes s' = agent_notes s ++ [mkNote agent text target t_note prio] /\
  last_update s' = t_upd /\
  draft_history s' = draft_history s /\
  current_version s' = current_version s /\
  current_draft s' = current_draft s /\
  iteration_count s' = iteration_count s /\
  status s' = status s /\
  halted s' = halted s /\
  human_approved s' = human_approved s.
Proof. destruct s. cbn. repeat split. Qed.

(** X1. Notes are only ever appended: after any sequence of
    [add_agent_note] calls the blackboard holds the notes it held before,
    in the same order, followed by the new notes in the order of the calls;
    the drafts, the counters, the status and the two human-in-the-loop
    flags are as before. *)
Theorem leave_notes_appends (t_upd : datetime) (ns : list AgentNote)
    (s : ProtocolState) :
  let s' := leave_notes t_upd ns s in
  agent_notes s' = agent_notes s ++ ns /\
  draft_history s' = draft_history s /\
  current_version s' = current_version s /\
  current_draft s' = current_draft s /\
  iteration_count s' = iteration_count s /\
  status s' = status s /\
  halted s' = halted s /\
  human_approved s' = human_approved s.
Proof.
  revert s. induction ns as [|n ns IH]; intros s.
  - cbn. rewrite app_nil_r. repeat split.
  - change (leave_notes t_upd (n :: ns) s)
      with (leave_notes t_upd ns
              (add_agent_note (note_timestamp n) t_upd s (agent_name n)
                 (note n) (target_agent n) (priority n))).
    cbn zeta.
    specialize (IH (add_agent_note (note_timestamp n) t_upd s (agent_name n)
                      (note n) (target_agent n) (priority n))).
    destruct (add_agent_note_fields (note_timestamp n) t_upd s (agent_name n)
                (note n) (target_agent n) (priority n))
      as (Hn & _ & Hh & Hv & Hd & Hi & Hs & Hha & Hap).
    cbn zeta in IH.
    destruct IH as (IHn & IHh & IHv & IHd & IHi & IHs & IHha & IHap).
    repeat split; try congruence.
    rewrite IHn, Hn, <- app_assoc. cbn. by destruct n.
Qed.

(** ** The graph *)

Lemma route_after_agent (s : ProtocolState) (agent : string) :
  halted s = false ->
  human_approved s = false ->
  active_agent s = Some agent ->
  route s =
    if String.eqb agent "Drafter" then to_safety_review
    else if String.eqb agent "SafetyGuardian" then to_clinical_critique
    else if String.eqb agent "ClinicalCritic" then to_supervisor
    else if String.eqb agent "Supervisor" then Table.verdict s
    else if negb (truthy_str (current_draft s)) then to_draft
    else to_supervisor.
Proof.
  intros Hh Ha Hg. unfold route, should_continue, Table.verdict.
  rewrite Hh, Ha, Hg. cbn [opt_str_eqb].
  repeat match goal with |- context [if ?b then _ else _] => destruct b end;
    reflexivity.
Qed.

(** What the router can answer right after each node has returned. *)
Lemma route_after_node (agents : Agents) (clock : nat -> datetime)
    (tick : nat) (n : Node) (s s' : ProtocolState) :
  run_node agents clock tick n s = (s', None) ->
  match n with
  | draft => True
  | safety_review => route s' ∈ [to_halt; to_end; to_clinical_critique]
  | clinical_critique => route s' ∈ [to_halt; to_end; to_supervisor]
  | supervisor => route s' ∈ [to_halt; to_end; to_draft]
  end.
Proof.
  destruct n; cbn [run_node]; [done|..].
  - unfold safety_review_node.
    destruct (safety_guardian_review agents s) as [res|e]; [|done].
    intros [= <-]. unfold route, should_continue.
    destruct s, (sr_safety_checks res), (sr_safety_score res); cbn;
      destruct halted0, human_approved0; cbn; set_solver.
  - unfold clinical_critique_node.
    destruct (clinical_critic_critique agents s) as [res|e]; [|done].
    intros [= <-]. unfold route, should_continue.
    destruct s, (cr_empathy_score res), (cr_clinical_score res); cbn;
      destruct halted0, human_approved0; cbn; set_solver.
  - unfold supervisor_node.
    destruct (supervisor_decide agents s) as [res|e]; [|done].
    intros [= <-]. unfold route, should_continue.
    destruct s, (default false (dr_halted res)); cbn; [set_solver|].
    destruct halted0, human_approved0; cbn; try set_solver.
    repeat match goal with |- context [if ?b then _ else _] => destruct b end;
      cbn; set_solver.
Qed.

(** A turn of the graph, by the outcome of its node. *)
Lemma graph_step_cases (agents : Agents) (clock : nat -> datetime)
    (tick : nat) (n : Node) (s : ProtocolState) :
  match run_node agents clock tick n s with
  | (_, Some e) => graph_step agents clock tick n s = Raise e
  | (s', None) =>
      exists next : option Node,
        conditional_edges n (route s') = Some next /\
        graph_step agents clock tick n s = Return (s', next)
  end.
Proof.
  unfold graph_step.
  destruct (run_node agents clock tick n s) as [s' [e|]] eqn:Hrun; [done|].
  pose proof (route_after_node agents clock tick n s s' Hrun) as Hroute.
  fold (route s').
  destruct n;
    [destruct (route s'); eexists; split; reflexivity|..];
    repeat (apply elem_of_cons in Hroute as [->|Hroute]);
    try (by apply elem_of_nil in Hroute);
    eexists; split; reflexivity.
Qed.

(** X2. The mappings given to [add_conditional_edges] leave out some
    decisions ("safety_review" after every node but the drafter,
    "clinical_critique" after the critic), but the router never takes one
    of them there: a turn of the graph raises exactly when its node raises,
    with the node's exception, and otherwise hands the node's state to a
    destination of the mapping. *)
Theorem graph_step_always_routed (agents : Agents) (clock : nat -> datetime)
    (tick : nat) (n : Node) (s : ProtocolState) :
  (forall e, graph_step agents clock tick n s = Raise e <->
             snd (run_node agents clock tick n s) = Some e) /\
  (snd (run_node agents clock tick n s) = None ->
   exists next : option Node,
     conditional_edges n (route (fst (run_node agents clock tick n s)))
     = Some next /\
     graph_step agents clock tick n s
     = Return (fst (run_node agents clock tick n s), next)).
Proof.
  pose proof (graph_step_cases agents clock tick n s) as Hcases.
  destruct (run_node agents clock tick n s) as [s' [e'|]]; cbn [fst snd].
  - split; [|done]. intros e. rewrite Hcases. split; congruence.
  - destruct Hcases as (next & Hedge & Hstep). split.
    + intros e. rewrite Hstep. split; discriminate.
    + intros _. by exists next.
Qed.

Lemma graph_step_always_routed_witness :
  exists next : option Node,
    graph_step Sample.revising Sample.clock0 0 safety_review Sample.drafted
    = Return (fst (run_node Sample.revising Sample.clock0 0 safety_review
                     Sample.drafted), next).
Proof.
  destruct (proj2 (graph_step_always_routed Sample.revising Sample.clock0 0
                     safety_review Sample.drafted) eq_refl)
    as (next & _ & Hstep).
  by exists next.
Defined.

Lemma draft_node_returns (agents : Agents) (t_draft t_upd : datetime)
    (s : ProtocolState) (res : DraftResult) :
  drafter_draft agents s = Return res ->
  let out := draft_node agents t_draft t_upd s in
  snd out = None /\
  active_agent (fst out) = default (Some "Drafter") (r_active_agent res) /\
  halted (fst out) = halted s /\
  human_approved (fst out) = human_approved s.
Proof.
  intros Hres. unfold draft_node. rewrite Hres. clear Hres.
  destruct s, res as [[cd|] aa st]; cbn;
    repeat match goal with
           | |- context [match ?o with Some _ => _ | None => _ end] =>
               destruct o; cbn
           | |- context [if ?b then _ else _] => destruct b; cbn
           end; by repeat split.
Qed.

(** X3. The order of the pipeline.  From a state that is neither halted nor
    approved, a turn of the graph hands over as follows: the drafter (when
    its result names no other agent) to the safety review, the safety
    review to the clinical critique, the clinical critique to the
    supervisor; the supervisor, when it does not ask to halt, back to the
    drafter if the status it returned contains "needs_revision", and to the
    end of the run otherwise. *)
Theorem pipeline_order (agents : Agents) (clock : nat -> datetime)
    (tick : nat) (s : ProtocolState) :
  halted s = false ->
  human_approved s = false ->
  (forall res, drafter_draft agents s = Return res ->
               r_active_agent res = None ->
               exists s', graph_step agents clock tick draft s
                          = Return (s', Some safety_review)) /\
  (forall res, safety_guardian_review agents s = Return res ->
               exists s', graph_step agents clock tick safety_review s
                          = Return (s', Some clinical_critique)) /\
  (forall res, clinical_critic_critique agents s = Return res ->
               exists s', graph_step agents clock tick clinical_critique s
                          = Return (s', Some supervisor)) /\
  (forall res, supervisor_decide agents s = Return res ->
               default false (dr_halted res) = false ->
               exists s',
                 status s' = default "deciding" (dr_status res) /\
                 graph_step agents clock tick supervisor s
                 = Return (s', if str_in "needs_revision" (status s')
                               then Some draft else None)).
Proof.
  intros Hh Ha. repeat split.
  - intros res Hres Hag. unfold graph_step, run_node.
    destruct (draft_node_returns agents (clock tick) (clock (S tick)) s res Hres)
      as (Hnone & Hagent & Hh' & Ha').
    destruct (draft_node agents (clock tick) (clock (S tick)) s) as [s' r].
    cbn [fst snd] in *. subst r. fold (route s').
    rewrite (route_after_agent s' "Drafter"); [|congruence..|by rewrite Hagent, Hag].
    cbn. by eexists.
  - intros res Hres. unfold graph_step, run_node, safety_review_node.
    rewrite Hres. destruct s. cbn in Hh, Ha. subst.
    destruct (sr_safety_checks res), (sr_safety_score res); cbn;
      eexists; reflexivity.
  - intros res Hres. unfold graph_step, run_node, clinical_critique_node.
    rewrite Hres. destruct s. cbn in Hh, Ha. subst.
    destruct (cr_empathy_score res), (cr_clinical_score res); cbn;
      eexists; reflexivity.
  - intros res Hres Hno. exists (fst (supervisor_node agents s)).
    unfold graph_step, run_node, supervisor_node.
    rewrite Hres, Hno. destruct s. cbn in Hh, Ha. subst. cbn.
    split; [reflexivity|].
    destruct (str_in "needs_revision" _); [reflexivity|].
    destruct (_ || _); reflexivity.
Qed.

Lemma pipeline_order_witness :
  (exists s', graph_step Sample.revising Sample.clock0 0 draft Sample.fresh
              = Return (s', Some safety_review)) /\
  (exists s', graph_step Sample.revising Sample.clock0 0 supervisor Sample.fresh
              = Return (s', Some draft)).
Proof.
  destruct (pipeline_order Sample.revising Sample.clock0 0 Sample.fresh
              eq_refl eq_refl) as (Hd & _ & _ & Hs).
  split.
  - apply (Hd (mkDraftResult (Some (Some "Breathe in. Breathe out.")) None None));
      reflexivity.
  - destruct (Hs (mkDecisionResult (Some "needs_revision") None) eq_refl eq_refl)
      as (s' & Hst & Hstep).
    exists s'. rewrite Hstep, Hst. reflexivity.
Defined.

(** The two human-in-the-loop flags across a node. *)
Lemma run_node_flags (agents : Agents) (clock : nat -> datetime)
    (tick : nat) (n : Node) (s : ProtocolState) :
  let out := run_node agents clock tick n s in
  human_approved (fst out) = human_approved s /\
  (halted s = true -> halted (fst out) = true).
Proof.
  destruct n; cbn [run_node].
  - unfold draft_node. destruct (drafter_draft agents s) as [res|e]; [|done].
    destruct s, res as [[cd|] aa st]; cbn;
      repeat match goal with
             | |- context [match ?o with Some _ => _ | None => _ end] =>
                 destruct o; cbn
             | |- context [if ?b then _ else _] => destruct b; cbn
             end; by split.
  - unfold safety_review_node.
    destruct (safety_guardian_review agents s) as [res|e]; [|done].
    by destruct s, (sr_safety_checks res), (sr_safety_score res).
  - unfold clinical_critique_node.
    destruct (clinical_critic_critique agents s) as [res|e]; [|done].
    by destruct s, (cr_empathy_score res), (cr_clinical_score res).
  - unfold supervisor_node.
    destruct (supervisor_decide agents s) as [res|e]; [|done].
    by destruct s, (default false (dr_halted res)).
Qed.

(** X4. What no node does.  Whatever its agent returns, a node leaves the
    intent, the session id, the iteration cap, the start time and the
    human approval and edits as they were, and never clears [halted]; a
    node whose agent raises changes nothing at all. *)
Theorem run_node_frame (agents : Agents) (clock : nat -> datetime)
    (tick : nat) (n : Node) (s : ProtocolState) :
  let out := run_node agents clock tick n s in
  same_session s (fst out) /\
  (halted s = true -> halted (fst out) = true) /\
  (forall e, snd out = Some e -> fst out = s).
Proof.
  unfold same_session.
  destruct n; cbn [run_node].
  - unfold draft_node. destruct (drafter_draft agents s) as [res|e];
      [|by repeat split].
    destruct s, res as [[cd|] aa st]; cbn;
      repeat match goal with
             | |- context [match ?o with Some _ => _ | None => _ end] =>
                 destruct o; cbn
             | |- context [if ?b then _ else _] => destruct b; cbn
             end; by repeat split.
  - unfold safety_review_node.
    destruct (safety_guardian_review agents s) as [res|e]; [|by repeat split].
    destruct s, (sr_safety_checks res), (sr_safety_score res); cbn;
      by repeat split.
  - unfold clinical_critique_node.
    destruct (clinical_critic_critique agents s) as [res|e];
      [|by repeat split].
    destruct s, (cr_empathy_score res), (cr_clinical_score res); cbn;
      by repeat split.
  - unfold supervisor_node.
    destruct (supervisor_decide agents s) as [res|e]; [|by repeat split].
    destruct s, (default false (dr_halted res)); cbn; by repeat split.
Qed.

Lemma run_node_frame_witness :
  halted (fst (run_node Sample.revising Sample.clock0 0 draft Sample.paused))
  = true /\
  fst (run_node Sample.drafter_down Sample.clock0 0 draft Sample.paused)
  = Sample.paused.
Proof.
  split.
  - apply (proj1 (proj2 (run_node_frame Sample.revising Sample.clock0 0 draft
                           Sample.paused))). reflexivity.
  - apply (proj2 (proj2 (run_node_frame Sample.drafter_down Sample.clock0 0
                           draft Sample.paused))
             (ExternalError "model call failed")). reflexivity.
Defined.

(** ** Counters along a run *)

Lemma run_invariant_initial (now : datetime) (ui sid : string) (mi : Z) :
  run_invariant (create_initial_state now ui sid mi).
Proof. repeat split; cbn; by try constructor. Qed.

Lemma run_invariant_other (s s' : ProtocolState) :
  run_invariant s ->
  draft_history s' = draft_history s ->
  current_version s' = current_version s ->
  iteration_count s <= iteration_count s' ->
  run_invariant s'.
Proof.
  intros (Hv & Hlen & Hall) Hh Hcv Hic. unfold run_invariant.
  rewrite Hh, Hcv. repeat split; try lia.
  eapply Forall_impl; [exact Hall|]. cbn. intros d ?. lia.
Qed.

Lemma run_invariant_append (t_draft t_upd : datetime) (s : ProtocolState)
    (c author : string) (ss es cs : option float) :
  run_invariant s ->
  current_version s < iteration_count s ->
  run_invariant (add_draft_version t_draft t_upd s c author ss es cs).
Proof.
  intros (Hv & Hlen & Hall) Hlt.
  destruct (add_draft_version_fields t_draft t_upd s c author ss es cs)
    as (Hh & Hcv & _ & _ & Hic).
  unfold run_invariant. rewrite Hh, Hcv, Hic, length_app. cbn.
  repeat split; try lia.
  apply Forall_app. split; [exact Hall|].
  constructor; [cbn; lia|constructor].
Qed.

Lemma run_node_invariant (agents : Agents) (clock : nat -> datetime)
    (tick : nat) (n : Node) (s : ProtocolState) :
  run_invariant s ->
  run_invariant (fst (run_node agents clock tick n s)) /\
  iteration_count s <= iteration_count (fst (run_node agents clock tick n s)).
Proof.
  intros Hs.
  assert (Hsame : forall s',
             draft_history s' = draft_history s ->
             current_version s' = current_version s ->
             iteration_count s' = iteration_count s ->
             run_invariant s' /\ iteration_count s <= iteration_count s').
  { intros s' Hh Hv Hi. split; [|lia].
    apply run_invariant_other with s; [done..|lia]. }
  destruct n; cbn [run_node].
  - unfold draft_node. destruct (drafter_draft agents s) as [res|e];
      [|split; [done|cbn; lia]].
    cbn [fst]. set (s1 := set_iteration_count _ _).
    assert (Hh1 : draft_history s1 = draft_history s) by by destruct s.
    assert (Hv1 : current_version s1 = current_version s) by by destruct s.
    assert (Hi1 : iteration_count s1 = iteration_count s + 1) by by destruct s.
    assert (H1 : run_invariant s1).
    { apply run_invariant_other with s; [done..|lia]. }
    destruct (current_draft s1) as [c|]; [|split; [done|lia]].
    match goal with |- context [if ?b then _ else _] => destruct b end;
      [|split; [done|lia]].
    split.
    + apply run_invariant_append; [done|]. destruct Hs as (Hs & _). lia.
    + destruct (add_draft_version_fields (clock tick) (clock (S tick)) s1 c
                  "Drafter" None None None) as (_ & _ & _ & _ & Hic).
      cbn zeta in Hic. rewrite Hic. lia.
  - unfold safety_review_node.
    destruct (safety_guardian_review agents s) as [res|e];
      [|split; [done|cbn; lia]].
    apply Hsame; destruct s, (sr_safety_checks res), (sr_safety_score res);
      reflexivity.
  - unfold clinical_critique_node.
    destruct (clinical_critic_critique agents s) as [res|e];
      [|split; [done|cbn; lia]].
    apply Hsame; destruct s, (cr_empathy_score res), (cr_clinical_score res);
      reflexivity.
  - unfold supervisor_node.
    destruct (supervisor_decide agents s) as [res|e];
      [|split; [done|cbn; lia]].
    apply Hsame; destruct s, (default false (dr_halted res)); reflexivity.
Qed.

Lemma run_graph_invariant (agents : Agents) (clock : nat -> datetime)
    (fuel tick : nat) (n : Node) (s : ProtocolState) :
  run_invariant s ->
  Forall (fun s' => run_invariant s' /\ iteration_count s <= iteration_count s')
         (run_graph agents clock fuel tick n s).
Proof.
  revert tick n s. induction fuel as [|fuel IH]; intros tick n s Hs;
    [constructor|].
  cbn [run_graph].
  pose proof (graph_step_cases agents clock tick n s) as Hstep.
  pose proof (run_node_invariant agents clock tick n s Hs) as [Hinv Hmono].
  destruct (run_node agents clock tick n s) as [s' [e|]].
  - rewrite Hstep. constructor.
  - destruct Hstep as (next & _ & ->). cbn [fst] in *.
    destruct next as [n'|].
    + constructor; [done|].
      eapply Forall_impl; [apply (IH _ n' s' Hinv)|].
      cbn. intros x [? ?]. split; [done|lia].
    + constructor; [by split|constructor].
Qed.

(** X5. In every state written by a run that starts from an initial state,
    whatever the agents return: [current_version] is the length of the
    draft history, it lies between 0 and [iteration_count], each draft
    record has [version <= iteration <= iteration_count], and
    [iteration_count] is at least 0. *)
Theorem run_counters (agents : Agents) (clock : nat -> datetime)
    (fuel tick : nat) (now : datetime) (ui sid : string) (mi : Z) :
  Forall (fun s' => run_invariant s' /\ 0 <= iteration_count s')
         (run_graph agents clock fuel tick entry_point
            (create_initial_state now ui sid mi)).
Proof.
  apply (run_graph_invariant agents clock fuel tick entry_point
           (create_initial_state now ui sid mi)
           (run_invariant_initial now ui sid mi)).
Qed.

(** ** What the nodes store *)

(** X6. The safety review merges the checks it gets into the stored ones:
    a check named in the result takes the result's value, every other
    stored check keeps its value, and no stored check is dropped.  A result
    without checks or without a score leaves the stored ones as they are. *)
Theorem safety_review_merges (agents : Agents) (s : ProtocolState)
    (res : ReviewResult) :
  safety_guardian_review agents s = Return res ->
  let s' := fst (safety_review_node agents s) in
  (forall k : string,
      safety_checks s' !! k =
        match sr_safety_checks res ≫= (.!! k) with
        | Some b => Some b
        | None => safety_checks s !! k
        end) /\
  dom (safety_checks s) ⊆ dom (safety_checks s') /\
  (sr_safety_score res = None -> safety_score s' = safety_score s) /\
  active_agent s' = Some "SafetyGuardian" /\
  status s' = default "reviewing" (sr_status res).
Proof.
  intros Hres. unfold safety_review_node. rewrite Hres. cbn zeta.
  destruct s, res as [[checks|] [score|] st]; cbn; repeat split;
    try done; try set_solver.
  - intros k. rewrite lookup_union.
    destruct (checks !! k), (safety_checks0 !! k); reflexivity.
  - intros k. rewrite lookup_union.
    destruct (checks !! k), (safety_checks0 !! k); reflexivity.
Qed.

Lemma safety_review_merges_witness :
  let agents :=
    mkAgents (drafter_draft Sample.revising)
      (fun _ => Return (mkReviewResult (Some {[ "no_medical_advice" := false ]})
                          None None))
      (clinical_critic_critique Sample.revising)
      (supervisor_decide Sample.revising) in
  let s := set_safety_checks {[ "no_medical_advice" := true;
                                "no_self_harm" := true ]} Sample.drafted in
  safety_checks (fst (safety_review_node agents s)) !! "no_medical_advice"
  = Some false /\
  safety_checks (fst (safety_review_node agents s)) !! "no_self_harm"
  = Some true.
Proof.
  intros agents s.
  destruct (safety_review_merges agents s
              (mkReviewResult (Some {[ "no_medical_advice" := false ]})
                 None None) eq_refl) as (Hlook & _).
  split; rewrite Hlook; vm_compute; reflexivity.
Defined.

(** X7. When the supervisor asks to halt, the state is stored as halted
    with status "awaiting_approval" whatever status the supervisor
    returned, the run stops after this node, and a stream opened on the
    stored state replays it as one [halted] event without consulting the
    engine. *)
Theorem supervisor_halt_pauses (agents : Agents) (s : ProtocolState)
    (res : DecisionResult) :
  supervisor_decide agents s = Return res ->
  dr_halted res = Some true ->
  let s' := fst (supervisor_node agents s) in
  halted s' = true /\
  status s' = "awaiting_approval" /\
  (forall (clock : nat -> datetime) (tick : nat),
      graph_step agents clock tick supervisor s = Return (s', None)) /\
  (forall (engine : Engine) (clock : nat -> datetime) (sid : string)
          (w : World),
      checkpoints w !! sid = Some s' ->
      stream_protocol engine clock sid w =
        (w, [ev_halted (Some s') "Workflow paused for human review"
               (clock 0%nat)])).
Proof.
  intros Hres Hhalt s'.
  assert (Hs' : s' = set_status "awaiting_approval"
                       (set_halted true
                          (set_status (default "deciding" (dr_status res))
                             (set_active_agent (Some "Supervisor") s)))).
  { subst s'. unfold supervisor_node. by rewrite Hres, Hhalt. }
  assert (Hh : halted s' = true) by (rewrite Hs'; by destruct s).
  assert (Hst : status s' = "awaiting_approval") by (rewrite Hs'; by destruct s).
  repeat split; [done..| |].
  - intros clock tick. unfold graph_step, run_node.
    replace (supervisor_node agents s) with (s', @None exn).
    + unfold should_continue. by rewrite Hh.
    + subst s'. unfold supervisor_node. by rewrite Hres.
  - intros engine clock sid w Hc. unfold stream_protocol, is_paused.
    by rewrite Hc, Hst, Hh.
Qed.

Lemma supervisor_halt_pauses_witness :
  let agents :=
    mkAgents (drafter_draft Sample.revising)
      (safety_guardian_review Sample.revising)
      (clinical_critic_critique Sample.revising)
      (fun _ => Return (mkDecisionResult (Some "ready_for_review")
                          (Some true))) in
  status (fst (supervisor_node agents Sample.drafted)) = "awaiting_approval" /\
  graph_step agents Sample.clock0 0 supervisor Sample.drafted
  = Return (fst (supervisor_node agents Sample.drafted), None).
Proof.
  intros agents.
  destruct (supervisor_halt_pauses agents Sample.drafted
              (mkDecisionResult (Some "ready_for_review") (Some true))
              eq_refl eq_refl) as (_ & Hst & Hstep & _).
  split; [exact Hst|apply Hstep].
Defined.

(** X8. A halt decided by the router alone does not pause the session.
    When the supervisor returns a status that contains "ready_for_review"
    or "awaiting_review" (and not "needs_revision") without asking to halt,
    the router answers [halt] and the run stops, but the stored state has
    [halted = false] and a status other than "awaiting_approval": a stream
    opened on it does not replay a [halted] event, it resumes the run. *)
Theorem router_halt_not_paused (agents : Agents) (s : ProtocolState)
    (res : DecisionResult) :
  halted s = false ->
  human_approved s = false ->
  supervisor_decide agents s = Return res ->
  default false (dr_halted res) = false ->
  str_in "needs_revision" (default "deciding" (dr_status res)) = false ->
  str_in "ready_for_review" (default "deciding" (dr_status res))
  || str_in "awaiting_review" (default "deciding" (dr_status res)) = true ->
  let s' := fst (supervisor_node agents s) in
  route s' = to_halt /\
  (forall (clock : nat -> datetime) (tick : nat),
      graph_step agents clock tick supervisor s = Return (s', None)) /\
  halted s' = false /\
  completed_or_awaiting (status s') = false /\
  (forall (engine : Engine) (clock : nat -> datetime) (sid : string)
          (w : World),
      checkpoints w !! sid = Some s' ->
      stream_protocol engine clock sid w = stream_run engine clock 0 sid s' w).
Proof.
  intros Hh Ha Hres Hno Hrev Hready s'.
  set (st := default "deciding" (dr_status res)) in *.
  assert (Hs' : supervisor_node agents s
                = (set_status st (set_active_agent (Some "Supervisor") s), None)).
  { unfold supervisor_node. rewrite Hres. fold st. by rewrite Hno. }
  subst s'. rewrite Hs'. cbn [fst].
  set (s' := set_status st _).
  assert (Hst : status s' = st) by by destruct s.
  assert (Hh' : halted s' = false) by (by destruct s).
  assert (Ha' : human_approved s' = false) by (by destruct s).
  assert (Hag : active_agent s' = Some "Supervisor") by by destruct s.
  assert (Hroute : route s' = to_halt).
  { rewrite (route_after_agent s' "Supervisor" Hh' Ha' Hag). cbn.
    unfold Table.verdict. by rewrite Hst, Hrev, Hready. }
  assert (Hne : forall lit : string,
             str_in "ready_for_review" lit || str_in "awaiting_review" lit
             = false ->
             String.eqb st lit = false).
  { intros lit Hlit. destruct (String.eqb_spec st lit) as [->|]; [|done].
    congruence. }
  assert (Hdone : String.eqb st "completed" = false) by by apply Hne.
  assert (Hwait : String.eqb st "awaiting_approval" = false) by by apply Hne.
  repeat split; try done.
  - intros clock tick. unfold graph_step, run_node. rewrite Hs'.
    unfold route in Hroute. fold s'. by rewrite Hroute.
  - unfold completed_or_awaiting. by rewrite Hst, Hdone, Hwait.
  - intros engine clock sid w Hc. unfold stream_protocol, is_paused.
    rewrite Hc, Hst, Hh', Hdone, Hwait. cbn.
    by destruct (String.eqb st "initializing").
Qed.

Lemma router_halt_not_paused_witness :
  let agents :=
    mkAgents (drafter_draft Sample.revising)
      (safety_guardian_review Sample.revising)
      (clinical_critic_critique Sample.revising)
      (fun _ => Return (mkDecisionResult (Some "ready_for_review") None)) in
  route (fst (supervisor_node agents Sample.drafted)) = to_halt /\
  halted (fst (supervisor_node agents Sample.drafted)) = false.
Proof.
  intros agents.
  destruct (router_halt_not_paused agents Sample.drafted
              (mkDecisionResult (Some "ready_for_review") None)
              eq_refl eq_refl eq_refl eq_refl eq_refl eq_refl)
    as (Hroute & _ & Hh & _).
  split; [exact Hroute|exact Hh].
Defined.

(** X9. A run resumed on a state that is halted or approved executes the
    node it is resumed at and stops: whatever that node's agent returns,
    the router then answers [halt] or [end]. *)
Theorem stopped_state_runs_one_node (agents : Agents)
    (clock : nat -> datetime) (fuel tick : nat) (n : Node)
    (s s' : ProtocolState) :
  halted s || human_approved s = true ->
  run_node agents clock tick n s = (s', None) ->
  route s' ∈ [to_halt; to_end] /\
  run_graph agents clock (S fuel) tick n s = [s'].
Proof.
  intros Hstop Hrun.
  pose proof (run_node_flags agents clock tick n s) as Hkeep.
  cbn zeta in Hkeep. rewrite Hrun in Hkeep. cbn [fst] in Hkeep.
  destruct Hkeep as (Ha & Hh).
  assert (Hroute : route s' = to_halt \/ route s' = to_end).
  { unfold route, should_continue. destruct (halted s'); [by left|].
    destruct (halted s); [by specialize (Hh eq_refl)|].
    cbn in Hstop. rewrite Ha, Hstop. by right. }
  split; [destruct Hroute as [-> | ->]; set_solver|].
  cbn [run_graph]. unfold graph_step. rewrite Hrun. fold (route s').
  destruct Hroute as [-> | ->]; by destruct n.
Qed.

Lemma stopped_state_runs_one_node_witness :
  run_graph Sample.revising Sample.clock0 3 0 safety_review Sample.paused
  = [fst (safety_review_node Sample.revising Sample.paused)].
Proof.
  apply (stopped_state_runs_one_node Sample.revising Sample.clock0 2 0
           safety_review Sample.paused
           (fst (safety_review_node Sample.revising Sample.paused)));
    reflexivity.
Defined.

(** ** Creating, halting and approving *)

Lemma new_session_id_nonempty (timestamp_repr : datetime -> string)
    (t_id : datetime) (request : ProtocolRequest) :
  new_session_id timestamp_repr t_id request <> "".
Proof.
  unfold new_session_id.
  destruct (req_session_id request) as [sid|]; cbn; [|discriminate].
  destruct (String.eqb_spec sid ""); cbn; [discriminate|done].
Qed.

(** The world that [create_protocol] leaves. *)
Lemma create_protocol_world (timestamp_repr : datetime -> string)
    (t_id t_state t_resp : datetime) (request : ProtocolRequest) (w : World) :
  let sid := new_session_id timestamp_repr t_id request in
  fst (create_protocol timestamp_repr t_id t_state t_resp request w) =
    if store_writable w
    then mkWorld
           (<[sid := create_initial_state t_state (intent request) sid 5]>
              (checkpoints w))
           (delete sid (<[sid := intent request]> (session_intents w)))
           (background_tasks w ++ [sid]) true
    else mkWorld (checkpoints w)
           (<[sid := intent request]> (session_intents w))
           (background_tasks w ++ [sid]) false.
Proof.
  intros sid. unfold create_protocol. fold sid.
  unfold io_try, io_bind, io_ret, aupdate_state, intents_set, intents_pop,
    add_task.
  destruct w as [cp si bt [|]]; reflexivity.
Qed.

(** X10. [create_protocol] touches one session only.  The session id it
    uses is the requested one when that is given and not empty, a generated
    one otherwise, and never the empty string; the checkpoints and the kept
    intents of every other session id are as before. *)
Theorem create_protocol_isolated (timestamp_repr : datetime -> string)
    (t_id t_state t_resp : datetime) (request : ProtocolRequest) (w : World) :
  let sid := new_session_id timestamp_repr t_id request in
  let w' := fst (create_protocol timestamp_repr t_id t_state t_resp request w) in
  sid <> "" /\
  (forall given, req_session_id request = Some given -> given <> "" ->
                 sid = given) /\
  (forall other : string,
      other <> sid ->
      checkpoints w' !! other = checkpoints w !! other /\
      session_intents w' !! other = session_intents w !! other).
Proof.
  intros sid w'. split; [apply new_session_id_nonempty|]. split.
  - intros given Hreq Hne. subst sid. unfold new_session_id. rewrite Hreq. cbn.
    by destruct (String.eqb_spec given "").
  - intros other Hother. subst w'.
    rewrite (create_protocol_world timestamp_repr t_id t_state t_resp request w).
    fold sid. destruct (store_writable w); cbn.
    + rewrite lookup_insert_ne by done.
      by rewrite lookup_delete_ne, lookup_insert_ne by done.
    + by rewrite lookup_insert_ne by done.
Qed.

Lemma create_protocol_isolated_witness :
  checkpoints
    (fst (create_protocol Sample.repr0 0 1 2
            (mkProtocolRequest "relaxation" (Some "s2"))
            (Sample.with_session Sample.paused))) !! "s1"
  = Some Sample.paused.
Proof.
  destruct (create_protocol_isolated Sample.repr0 0 1 2
              (mkProtocolRequest "relaxation" (Some "s2"))
              (Sample.with_session Sample.paused)) as (_ & _ & Hother).
  destruct (Hother "s1") as [Hc _]; [discriminate|].
  rewrite Hc. vm_compute. reflexivity.
Defined.

(** X11. After a create that wrote the checkpoint, the first stream finds
    the seed state, which is neither finished nor paused, and runs the
    engine on it.  After a create that could not write it, a stream that
    finds the store writable seeds the session from the kept intent, drops
    the intent and runs the engine. *)
Theorem create_then_stream (timestamp_repr : datetime -> string)
    (t_id t_state t_resp : datetime) (request : ProtocolRequest) (w : World)
    (engine : Engine) (clock : nat -> datetime) :
  let sid := new_session_id timestamp_repr t_id request in
  let w1 := fst (create_protocol timestamp_repr t_id t_state t_resp request w) in
  (store_writable w = true ->
   stream_protocol engine clock sid w1 =
     stream_run engine clock 0 sid
       (create_initial_state t_state (intent request) sid 5) w1) /\
  (store_writable w = false ->
   checkpoints w !! sid = None ->
   let seed := create_initial_state (clock 0%nat) (intent request) sid 5 in
   stream_protocol engine clock sid
     (mkWorld (checkpoints w1) (session_intents w1) (background_tasks w1) true)
   = stream_run engine clock 1 sid seed
       (mkWorld (<[sid := seed]> (checkpoints w))
                (delete sid (session_intents w1))
                (background_tasks w1) true)).
Proof.
  intros sid w1.
  pose proof (create_protocol_world timestamp_repr t_id t_state t_resp
                request w) as Hworld.
  cbn zeta in Hworld. fold sid in Hworld. fold w1 in Hworld.
  split.
  - intros Hw. rewrite Hw in Hworld.
    unfold stream_protocol, is_paused. rewrite Hworld. cbn.
    rewrite lookup_insert_eq. cbn. reflexivity.
  - intros Hw Hnone seed. rewrite Hw in Hworld. rewrite Hworld. cbn.
    rewrite (stream_seeds_from_intent engine clock sid (intent request));
      cbn; try done.
    apply lookup_insert_eq.
Qed.

Lemma create_then_stream_witness :
  let w1 := fst (create_protocol Sample.repr0 0 1 2 Sample.request_s1
                   Sample.empty_world) in
  stream_protocol Sample.no_engine Sample.clock0 "s1" w1
  = stream_run Sample.no_engine Sample.clock0 0 "s1"
      (create_initial_state 1 "sleep hygiene" "s1" 5) w1.
Proof.
  apply (proj1 (create_then_stream Sample.repr0 0 1 2 Sample.request_s1
                  Sample.empty_world Sample.no_engine Sample.clock0)).
  reflexivity.
Defined.

Lemma halt_update_fields (clock : nat -> datetime) (v : ProtocolState) :
  let v' := halt_update clock v in
  halted v' = true /\
  status v' = "awaiting_approval" /\
  agent_notes v' =
    agent_notes v ++
    [mkNote "Human" "Workflow halted for review" None (clock 0%nat) "warning"] /\
  human_approved v' = human_approved v /\
  draft_history v' = draft_history v /\
  current_version v' = current_version v /\
  current_draft v' = current_draft v /\
  iteration_count v' = iteration_count v.
Proof. destruct v. cbn. repeat split. Qed.

(** X12. Halting a stored session, with the store writable, writes the
    state with [halted = true], status "awaiting_approval" and one more
    note (from "Human", priority "warning"), keeps the drafts, the counters
    and every other session's checkpoint, and answers with the current
    draft.  From then on the router answers [halt] and every stream on the
    session replays that state as a single [halted] event. *)
Theorem halt_protocol_pauses (clock : nat -> datetime) (sid : string)
    (w : World) (v : ProtocolState) :
  checkpoints w !! sid = Some v ->
  store_writable w = true ->
  let v' := halt_update clock v in
  let w' := set_checkpoints (<[sid := v']> (checkpoints w)) w in
  halt_protocol clock sid w =
    (w', Return (mkHaltResponse sid "halted" (current_draft v)
                   "Workflow paused for human review")) /\
  agent_notes v' =
    agent_notes v ++
    [mkNote "Human" "Workflow halted for review" None (clock 0%nat) "warning"] /\
  draft_history v' = draft_history v /\
  current_version v' = current_version v /\
  iteration_count v' = iteration_count v /\
  (forall other, other <> sid ->
                 checkpoints w' !! other = checkpoints w !! other) /\
  route v' = to_halt /\
  (forall (engine : Engine) (clock' : nat -> datetime),
      stream_protocol engine clock' sid w' =
        (w', [ev_halted (Some v') "Workflow paused for human review"
                (clock' 0%nat)])).
Proof.
  intros Hc Hw v' w'.
  destruct (halt_update_fields clock v)
    as (Hh & Hst & Hn & _ & Hd & Hcv & Hcd & Hic).
  fold v' in Hh, Hst, Hn, Hd, Hcv, Hcd, Hic.
  repeat split; try done.
  - unfold halt_protocol, io_try, halt_body, io_bind, io_ret, aget_state,
      aupdate_state.
    rewrite Hc, Hw. fold v'. by rewrite Hcd.
  - intros other Hother. subst w'. cbn. by rewrite lookup_insert_ne.
  - unfold route, should_continue. by rewrite Hh.
  - intros engine clock'. unfold stream_protocol, is_paused. subst w'. cbn.
    by rewrite lookup_insert_eq, Hst, Hh.
Qed.

Lemma halt_protocol_pauses_witness :
  exists w',
    halt_protocol Sample.clock0 "s1" (Sample.with_session Sample.drafted)
    = (w', Return (mkHaltResponse "s1" "halted" (Some "Breathe in.")
                     "Workflow paused for human review")) /\
    stream_protocol Sample.no_engine Sample.clock0 "s1" w'
    = (w', [ev_halted (Some (halt_update Sample.clock0 Sample.drafted))
              "Workflow paused for human review" 0]).
Proof.
  destruct (halt_protocol_pauses Sample.clock0 "s1"
              (Sample.with_session Sample.drafted) Sample.drafted)
    as (Hhalt & _ & _ & _ & _ & _ & _ & Hstream);
    [vm_compute; reflexivity|reflexivity|].
  eexists. split; [exact Hhalt|apply Hstream].
Defined.

(** X13. When the store refuses the update, [halt_protocol] and
    [approve_protocol] answer with status 500 and the store's message, and
    leave the world as it was: the session is neither halted nor approved,
    and the engine is not resumed. *)
Theorem store_failure_reported (engine : Engine) (clock : nat -> datetime)
    (sid : string) (request : ApproveRequest) (w : World)
    (v v' : ProtocolState) :
  checkpoints w !! sid = Some v ->
  store_writable w = false ->
  halt_protocol clock sid w
  = (w, Raise (HTTPException 500 "checkpoint store unavailable")) /\
  (approve_update clock v request = Return v' ->
   approve_protocol engine clock sid request w
   = (w, Raise (HTTPException 500 "checkpoint store unavailable"))).
Proof.
  intros Hc Hw. split.
  - unfold halt_protocol, io_try, halt_body, io_bind, aget_state,
      aupdate_state, io_raise.
    by rewrite Hc, Hw.
  - intros Hv'.
    unfold approve_protocol, io_try, approve_body, io_bind, io_lift,
      aget_state, aupdate_state, io_raise.
    by rewrite Hc, Hv', Hw.
Qed.

Lemma store_failure_reported_witness :
  let w := mkWorld {[ "s1" := Sample.drafted ]} ∅ [] false in
  halt_protocol Sample.clock0 "s1" w
  = (w, Raise (HTTPException 500 "checkpoint store unavailable")) /\
  approve_protocol Sample.finishing_engine Sample.clock0 "s1"
    (mkApproveRequest None) w
  = (w, Raise (HTTPException 500 "checkpoint store unavailable")).
Proof.
  intros w.
  destruct (store_failure_reported Sample.finishing_engine Sample.clock0 "s1"
              (mkApproveRequest None) w Sample.drafted
              (set_status "approved"
                 (set_halted false
                    (set_human_approved true
                       (add_agent_note 0 1 Sample.drafted "Human"
                          "Protocol approved and finalized" None "info")))))
    as [Hhalt Happrove]; [vm_compute; reflexivity|reflexivity|].
  split; [exact Hhalt|apply Happrove; reflexivity].
Defined.

Lemma approve_update_flags (clock : nat -> datetime) (v v' : ProtocolState)
    (request : ApproveRequest) :
  approve_update clock v request = Return v' ->
  human_approved v' = true /\ halted v' = false /\ status v' = "approved" /\
  draft_history v' = draft_history v /\
  current_version v' = current_version v /\
  iteration_count v' = iteration_count v /\
  length (agent_notes v') = S (length (agent_notes v)).
Proof.
  unfold approve_update.
  destruct (truthy_str (approved_content request)); cbn.
  - destruct (current_draft v) as [d|]; [|discriminate].
    destruct (negb _); cbn; intros [= <-]; destruct v; cbn;
      rewrite ?length_app; cbn; repeat split; lia.
  - intros [= <-]. destruct v; cbn. rewrite ?length_app; cbn.
    repeat split; lia.
Qed.

(** X14. Whenever [approve_protocol] gets as far as writing the approved
    state, that state sends the router to [end], whatever agent wrote last
    and whatever the status was; it is not a finished or paused state for
    [stream_protocol], which resumes the run on it.  The drafts, the
    version and the iteration counter are as before the approval (an
    approval with edits adds no draft version) and one note is added. *)
Theorem approved_state_routes_to_end (clock : nat -> datetime)
    (v v' : ProtocolState) (request : ApproveRequest) :
  approve_update clock v request = Return v' ->
  route v' = to_end /\
  draft_history v' = draft_history v /\
  current_version v' = current_version v /\
  iteration_count v' = iteration_count v /\
  length (agent_notes v') = S (length (agent_notes v)) /\
  (forall (engine : Engine) (clock' : nat -> datetime) (sid : string)
          (w : World),
      checkpoints w !! sid = Some v' ->
      stream_protocol engine clock' sid w
      = stream_run engine clock' 0 sid v' w).
Proof.
  intros Hv'.
  destruct (approve_update_flags clock v v' request Hv')
    as (Ha & Hh & Hst & Hd & Hcv & Hic & Hn).
  repeat split; try done.
  - unfold route, should_continue. by rewrite Hh, Ha.
  - intros engine clock' sid w Hc. unfold stream_protocol, is_paused.
    by rewrite Hc, Hst, Hh.
Qed.

Lemma approved_state_routes_to_end_witness :
  exists v',
    approve_update Sample.clock0 Sample.paused
      (mkApproveRequest (Some "Breathe out.")) = Return v' /\
    route v' = to_end /\
    current_version v' = 1.
Proof.
  eexists. split; [reflexivity|].
  destruct (approved_state_routes_to_end Sample.clock0 Sample.paused _
              (mkApproveRequest (Some "Breathe out.")) eq_refl)
    as (Hroute & _ & Hcv & _).
  split; [exact Hroute|exact Hcv].
Defined.

(** X15. Once the approved state is written, the outcome of
    [approve_protocol] is the engine's.  If the resumed run raises, the
    handler answers 500 and leaves the world as the run left it: the
    approval is not rolled back.  If the run returns a state whose status
    is not "completed", that state is the answer and nothing more is
    written.  If the status is "completed", a "System" note is appended and
    the result is written once more before it is returned. *)
Theorem approve_protocol_outcome (engine : Engine) (clock : nat -> datetime)
    (sid : string) (request : ApproveRequest) (w : World)
    (v v' : ProtocolState) :
  checkpoints w !! sid = Some v ->
  store_writable w = true ->
  approve_update clock v request = Return v' ->
  let w1 := set_checkpoints (<[sid := v']> (checkpoints w)) w in
  let answer res :=
    mkApproveResponse sid "approved" "Protocol approved and workflow resumed"
      res in
  match ainvoke engine sid w1 with
  | (w2, Raise e) =>
      approve_protocol engine clock sid request w
      = (w2, Raise (HTTPException 500 (str_exn e)))
  | (w2, Return res) =>
      if String.eqb (status res) "completed"
      then
        let final :=
          add_agent_note (clock 2%nat) (clock 3%nat) res "System"
            "Protocol generation completed successfully" None "info" in
        store_writable w2 = true ->
        approve_protocol engine clock sid request w
        = (set_checkpoints (<[sid := final]> (checkpoints w2)) w2,
           Return (answer final))
      else
        approve_protocol engine clock sid request w = (w2, Return (answer res))
  end.
Proof.
  intros Hc Hw Hv' w1 answer.
  assert (Hbody : approve_protocol engine clock sid request w
                  = io_try (approve_resume engine clock sid)
                      (fun e => io_raise (HTTPException 500 (str_exn e))) w1).
  { unfold approve_protocol, io_try, approve_body, io_bind, io_lift,
      aget_state, aupdate_state.
    by rewrite Hc, Hv', Hw. }
  rewrite Hbody. unfold io_try, approve_resume, io_bind.
  destruct (ainvoke engine sid w1) as [w2 [res|e]]; [|reflexivity].
  destruct (String.eqb (status res) "completed"); [|reflexivity].
  intros Hw2. unfold aupdate_state. by rewrite Hw2.
Qed.

Lemma approve_protocol_outcome_witness :
  exists w' final,
    approve_protocol Sample.finishing_engine Sample.clock0 "s1"
      (mkApproveRequest None) (Sample.with_session Sample.paused)
    = (w', Return (mkApproveResponse "s1" "approved"
                     "Protocol approved and workflow resumed" final)) /\
    checkpoints w' !! "s1" = Some final /\
    status final = "completed" /\
    note <$> last (agent_notes final)
    = Some "Protocol generation completed successfully".
Proof.
  pose proof (approve_protocol_outcome Sample.finishing_engine Sample.clock0
                "s1" (mkApproveRequest None)
                (Sample.with_session Sample.paused) Sample.paused
                (set_status "approved"
                   (set_halted false
                      (set_human_approved true
                         (add_agent_note 0 1 Sample.paused "Human"
                            "Protocol approved and finalized" None "info"))))
                ltac:(vm_compute; reflexivity) eq_refl eq_refl) as Hout.
  vm_compute in Hout. specialize (Hout eq_refl).
  eexists _, _. split; [exact Hout|].
  repeat split.
Defined.

(** ** The event stream *)

Lemma stream_run_terminal (engine : Engine) (clock : nat -> datetime)
    (tick : nat) (sid : string) (initial_state : ProtocolState) (w : World) :
  exists evs e,
    snd (stream_run engine clock tick sid initial_state w) = evs ++ [e] /\
    is_terminal e = true.
Proof.
  unfold stream_run.
  destruct (negb (completed_or_awaiting (status initial_state))).
  - destruct (astream engine w sid) as [[events w_end] raised].
    destruct (stream_updates clock tick sid events) as [tick1 evs].
    destruct raised; cbn [snd]; by eexists _, _.
  - cbn [snd]. by eexists _, _.
Qed.

(** X16. Every stream ends with a terminal event: whatever the stored
    state, the kept intents and the engine do, the events that
    [stream_protocol] yields are not empty and the last one is [complete],
    [halted] or [error], never a [state_update].  For a session id that has
    neither a checkpoint nor a kept intent the stream is a single [error]
    event; the world is unchanged and the engine is not consulted. *)
Theorem stream_ends_with_terminal (engine : Engine) (clock : nat -> datetime)
    (sid : string) (w : World) :
  (exists evs e,
      snd (stream_protocol engine clock sid w) = evs ++ [e] /\
      is_terminal e = true) /\
  (checkpoints w !! sid = None ->
   session_intents w !! sid = None ->
   exists msg, stream_protocol engine clock sid w = (w, [ev_error msg])).
Proof.
  split.
  - unfold stream_protocol.
    destruct (checkpoints w !! sid) as [values|].
    + repeat match goal with
             | |- context [if ?b then _ else _] => destruct b
             end;
        try apply stream_run_terminal; by eexists [], _.
    + destruct (session_intents w !! sid) as [user_intent|];
        [|by eexists [], _].
      destruct (aupdate_state _ _ w) as [w1 [[]|e]];
        [apply stream_run_terminal|by eexists [], _].
  - intros Hc Hi. unfold stream_protocol. rewrite Hc, Hi. by eexists.
Qed.

Lemma stream_ends_with_terminal_witness :
  exists msg,
    stream_protocol Sample.no_engine Sample.clock0 "s9"
      (Sample.with_session Sample.paused)
    = (Sample.with_session Sample.paused, [ev_error msg]).
Proof.
  apply (proj2 (stream_ends_with_terminal Sample.no_engine Sample.clock0 "s9"
                  (Sample.with_session Sample.paused)));
    vm_compute; reflexivity.
Defined.


(** ** Serializing a state for JSON *)


(** Induction over Python values, with the hypothesis for the items of a
    list and for the values of a dictionary. *)
Lemma pyval_induction (P : pyval -> Prop) :
  P PNone ->
  (forall b, P (PBool b)) ->
  (forall z, P (PInt z)) ->
  (forall f, P (PFloat f)) ->
  (forall s, P (PStr s)) ->
  (forall d, P (PDatetime d)) ->
  (forall l, Forall P l -> P (PList l)) ->
  (forall items, Forall (fun kv => P (snd kv)) items -> P (PDict items)) ->
  forall v, P v.
Proof.
  intros HNone HBool HInt HFloat HStr HDate HList HDict.
  fix IH 1. intros [ |b|z|f|s|d|l|items].
  - exact HNone.
  - apply HBool.
  - apply HInt.
  - apply HFloat.
  - apply HStr.
  - apply HDate.
  - apply HList. induction l as [|x l IHl]; constructor; [apply IH|exact IHl].
  - apply HDict. induction items as [|[k x] items IHi]; constructor;
      [apply IH|exact IHi].
Qed.

Lemma serialize_value_idempotent (isoformat : datetime -> string) (v : pyval) :
  serialize_value isoformat (serialize_value isoformat v)
  = serialize_value isoformat v.
Proof.
  induction v as [ |b|z|f|s|d|l IH|items IH] using pyval_induction;
    try reflexivity.
  - cbn. f_equal. rewrite map_map. apply map_ext_Forall.
    eapply Forall_impl; [exact IH|]. cbn.
    intros [ |b|z|f|s|d|l'|items'] Hx; try reflexivity. exact Hx.
  - cbn. f_equal. rewrite map_map. apply map_ext_Forall.
    eapply Forall_impl; [exact IH|]. cbn. intros [k x] Hx. cbn in *.
    by rewrite Hx.
Qed.

Lemma serialize_value_datetimes (isoformat : datetime -> string) (v : pyval) :
  has_datetime (serialize_value isoformat v) = negb (inner_lists_plain v).
Proof.
  induction v as [ |b|z|f|s|d|l IH|items IH] using pyval_induction;
    try reflexivity.
  - cbn. induction IH as [|x l Hx _ IHl]; [reflexivity|].
    cbn. rewrite IHl, negb_andb. f_equal.
    destruct x; try reflexivity; try exact Hx.
    by rewrite negb_involutive.
  - cbn. induction IH as [|[k x] items Hx _ IHi]; [reflexivity|].
    cbn in *. by rewrite IHi, Hx, negb_andb.
Qed.

(** X18. [serialize_state_for_json] keeps the keys of the dictionary and
    their order, gives the empty dictionary for [None] and for the empty
    dictionary, and is idempotent: serializing a serialized state changes
    nothing. *)
Theorem serialize_state_idempotent (isoformat : datetime -> string)
    (state : option (list (string * pyval))) :
  map fst (serialize_state_for_json isoformat state)
  = map fst (default [] state) /\
  (default [] state = [] -> serialize_state_for_json isoformat state = []) /\
  serialize_state_for_json isoformat
    (Some (serialize_state_for_json isoformat state))
  = serialize_state_for_json isoformat state.
Proof.
  destruct state as [items|]; cbn; [|done].
  repeat split.
  - rewrite map_map. by apply map_ext.
  - by intros ->.
  - rewrite map_map. apply map_ext. intros [k x]. cbn.
    by rewrite serialize_value_idempotent.
Qed.

Lemma serialize_state_idempotent_witness :
  serialize_state_for_json (fun _ => "2025-01-01T00:00:00") (Some []) = [].
Proof.
  apply (proj1 (proj2 (serialize_state_idempotent
                         (fun _ => "2025-01-01T00:00:00") (Some [])))).
  reflexivity.
Defined.

(** X19. Which datetimes [serialize_state_for_json] converts.  The
    serialized state holds no datetime exactly when, in the state, no list
    that is itself an item of a list holds one: datetimes that are values
    of a dictionary or items of a list are converted at any depth reached
    through dictionaries and lists of dictionaries, and a list inside a
    list is copied as it is. *)
Theorem serialize_state_datetime_free (isoformat : datetime -> string)
    (items : list (string * pyval)) :
  has_datetime (PDict (serialize_state_for_json isoformat (Some items))) = false
  <-> inner_lists_plain (PDict items) = true.
Proof.
  change (PDict (serialize_state_for_json isoformat (Some items)))
    with (serialize_value isoformat (PDict items)).
  rewrite serialize_value_datetimes.
  by destruct (inner_lists_plain (PDict items)).
Qed.

Lemma serialize_state_datetime_free_witness :
  let state :=
    [("start_time", PDatetime 7);
     ("draft_history",
      PList [PDict [("timestamp", PDatetime 8); ("feedback", PList [])]])] in
  has_datetime (PDict (serialize_state_for_json (fun _ => "t") (Some state)))
  = false.
Proof.
  intros state.
  apply (proj2 (serialize_state_datetime_free (fun _ => "t") state)).
  reflexivity.
Defined.

(** ** The database path *)

Lemma remove_all_absent (old s : string) :
  str_in old s = false -> Checkpointer.remove_all old s 0 = s.
Proof.
  induction s as [|c s IH]; [reflexivity|].
  cbn [str_in Checkpointer.remove_all]. intros H.
  apply orb_false_elim in H as [Hp Hs]. rewrite Hp. by rewrite IH.
Qed.

(** X20. The file that the checkpointer opens.  A [DATABASE_URL] that does
    not start with "sqlite:///" is used as the path as it is; one that does
    loses that text, and gives the rest of it as the path when the rest
    does not contain "sqlite:///" again; without the variable the path is
    "./cerina_foundry.db". *)
Theorem database_path_cases :
  (forall url : string,
      String.prefix "sqlite:///" url = false ->
      Checkpointer.database_path (Some url) = url) /\
  (forall path : string,
      str_in "sqlite:///" path = false ->
      Checkpointer.database_path (Some ("sqlite:///" +:+ path)) = path) /\
  Checkpointer.database_path None = "./cerina_foundry.db".
Proof.
  repeat split.
  - intros url Hp. unfold Checkpointer.database_path.
    cbn -[String.prefix Checkpointer.remove_all]. by rewrite Hp.
  - intros path Hin. unfold Checkpointer.database_path.
    cbv [String.append]. cbn.
    assert (Hempty : String.prefix "" path = true) by by destruct path.
    rewrite Hempty. by apply remove_all_absent.
Qed.

Lemma database_path_cases_witness :
  Checkpointer.database_path (Some "sqlite:////var/lib/cerina/foundry.db")
  = "/var/lib/cerina/foundry.db" /\
  Checkpointer.database_path (Some "data/foundry.db") = "data/foundry.db".
Proof.
  destruct database_path_cases as (Hplain & Hsqlite & _). split.
  - apply (Hsqlite "/var/lib/cerina/foundry.db"). reflexivity.
  - apply (Hplain "data/foundry.db"). reflexivity.
Defined.

(** ** Halting, then approving *)

Lemma approve_update_note (clock : nat -> datetime) (v v' : ProtocolState)
    (request : ApproveRequest) :
  approve_update clock v request = Return v' ->
  exists msg,
    agent_notes v' =
      agent_notes v ++ [mkNote "Human" msg None (clock 0%nat) "info"].
Proof.
  unfold approve_update.
  destruct (truthy_str (approved_content request)); cbn.
  - destruct (current_draft v) as [d|]; [|discriminate].
    destruct (negb _); cbn; intros [= <-]; destruct v; cbn; by eexists.
  - intros [= <-]. destruct v; cbn. by eexists.
Qed.

(** X21. Approving a session that was halted by hand lifts the pause: the
    state that is written has [halted = false], [human_approved = true]
    and status "approved", the router answers [end] on it, its notes are
    the earlier notes followed by the halt note and then the approval
    note, and its draft history is the one from before the halt. *)
Theorem halt_then_approve (clock_h clock_a : nat -> datetime)
    (v v' : ProtocolState) (request : ApproveRequest) :
  approve_update clock_a (halt_update clock_h v) request = Return v' ->
  halted v' = false /\ human_approved v' = true /\ status v' = "approved" /\
  route v' = to_end /\
  draft_history v' = draft_history v /\
  exists msg,
    agent_notes v' =
      agent_notes v ++
      [mkNote "Human" "Workflow halted for review" None (clock_h 0%nat)
         "warning";
       mkNote "Human" msg None (clock_a 0%nat) "info"].
Proof.
  intros Hv'.
  destruct (approve_update_flags clock_a _ v' request Hv')
    as (Ha & Hh & Hst & Hd & _).
  destruct (approve_update_note clock_a _ v' request Hv') as (msg & Hn).
  destruct (halt_update_fields clock_h v) as (_ & _ & Hn0 & _ & Hd0 & _).
  cbn zeta in Hn0, Hd0.
  repeat split; try done.
  - unfold route, should_continue. by rewrite Hh, Ha.
  - congruence.
  - exists msg. by rewrite Hn, Hn0, <- app_assoc.
Qed.

Lemma halt_then_approve_witness :
  exists v',
    approve_update Sample.clock0 (halt_update Sample.clock0 Sample.drafted)
      (mkApproveRequest None) = Return v' /\
    halted v' = false /\ route v' = to_end /\
    length (agent_notes v') = 2%nat.
Proof.
  eexists. split; [reflexivity|].
  destruct (halt_then_approve Sample.clock0 Sample.clock0 Sample.drafted _
              (mkApproveRequest None) eq_refl)
    as (Hh & _ & _ & Hroute & _ & msg & Hn).
  split; [exact Hh|]. split; [exact Hroute|]. by rewrite Hn.
Defined.

(** ** The first pass of a run *)

Lemma graph_step_of_route (agents : Agents) (clock : nat -> datetime)
    (tick : nat) (n : Node) (s s' : ProtocolState) (next : option Node) :
  run_node agents clock tick n s = (s', None) ->
  conditional_edges n (route s') = Some next ->
  graph_step agents clock tick n s = Return (s', next).
Proof.
  intros Hrun Hedge. unfold graph_step. rewrite Hrun. fold (route s').
  by rewrite Hedge.
Qed.

Lemma review_nodes_stamp (agents : Agents) (clock : nat -> datetime)
    (tick : nat) (n : Node) (s s' : ProtocolState) :
  n = safety_review \/ n = clinical_critique ->
  run_node agents clock tick n s = (s', None) ->
  active_agent s' =
    Some (match n with
          | safety_review => "SafetyGuardian"
          | _ => "ClinicalCritic"
          end) /\
  halted s' = halted s /\
  human_approved s' = human_approved s /\
  iteration_count s' = iteration_count s.
Proof.
  intros [-> | ->]; cbn [run_node].
  - unfold safety_review_node.
    destruct (safety_guardian_review agents s) as [res|e]; [|discriminate].
    intros [= <-].
    destruct s, (sr_safety_checks res), (sr_safety_score res); by repeat split.
  - unfold clinical_critique_node.
    destruct (clinical_critic_critique agents s) as [res|e]; [|discriminate].
    intros [= <-].
    destruct s, (cr_empathy_score res), (cr_clinical_score res);
      by repeat split.
Qed.

(** X22. The first pass.  With agents that always return, a drafter that
    names no other agent and a supervisor that asks to halt, a run from an
    initial state executes exactly the drafter, the safety review, the
    clinical critique and the supervisor, in this order, and stops: the
    last state written is halted with status "awaiting_approval" after one
    iteration. *)
Theorem first_pass_halts (agents : Agents) (clock : nat -> datetime)
    (tick k : nat) (now : datetime) (ui sid : string) (mi : Z) :
  (forall s, exists res, drafter_draft agents s = Return res /\
                         r_active_agent res = None) ->
  (forall s, exists res, safety_guardian_review agents s = Return res) ->
  (forall s, exists res, clinical_critic_critique agents s = Return res) ->
  (forall s, exists res, supervisor_decide agents s = Return res /\
                         dr_halted res = Some true) ->
  exists s1 s2 s3 s4,
    run_graph agents clock (4 + k) tick entry_point
      (create_initial_state now ui sid mi) = [s1; s2; s3; s4] /\
    map active_agent [s1; s2; s3; s4] =
      [Some "Drafter"; Some "SafetyGuardian"; Some "ClinicalCritic";
       Some "Supervisor"] /\
    halted s4 = true /\
    status s4 = "awaiting_approval" /\
    iteration_count s4 = 1.
Proof.
  intros Hdraft Hsafety Hcritic Hsup.
  set (s0 := create_initial_state now ui sid mi).
  (* the drafter *)
  destruct (Hdraft s0) as (rd & Hrd & Hag).
  destruct (draft_node_returns agents (clock tick) (clock (S tick)) s0 rd Hrd)
    as (Hn1 & Ha1 & Hh1 & Hp1).
  pose proof (draft_node_iteration_count agents (clock tick) (clock (S tick))
                s0 rd Hrd) as Hi1.
  destruct (draft_node agents (clock tick) (clock (S tick)) s0)
    as [s1 r1] eqn:Hnode1.
  cbn [fst snd] in *. subst r1. rewrite Hag in Ha1. cbn in Ha1, Hh1, Hp1, Hi1.
  assert (Hstep1 : graph_step agents clock tick draft s0
                   = Return (s1, Some safety_review)).
  { apply graph_step_of_route; [exact Hnode1|].
    by rewrite (route_after_agent s1 "Drafter"). }
  (* the safety review *)
  destruct (Hsafety s1) as (rs & Hrs).
  assert (Hnode2 : exists s2, run_node agents clock (S (S tick)) safety_review s1
                              = (s2, None)).
  { cbn. unfold safety_review_node. rewrite Hrs. by eexists. }
  destruct Hnode2 as (s2 & Hnode2).
  destruct (review_nodes_stamp agents clock _ safety_review s1 s2
              (or_introl eq_refl) Hnode2) as (Ha2 & Hh2 & Hp2 & Hi2).
  cbn in Ha2.
  assert (Hstep2 : graph_step agents clock (S (S tick)) safety_review s1
                   = Return (s2, Some clinical_critique)).
  { apply graph_step_of_route; [exact Hnode2|].
    rewrite (route_after_agent s2 "SafetyGuardian"); [done|congruence..|done]. }
  (* the clinical critique *)
  destruct (Hcritic s2) as (rc & Hrc).
  assert (Hnode3 : exists s3,
             run_node agents clock (S (S (S (S tick)))) clinical_critique s2
             = (s3, None)).
  { cbn. unfold clinical_critique_node. rewrite Hrc. by eexists. }
  destruct Hnode3 as (s3 & Hnode3).
  destruct (review_nodes_stamp agents clock _ clinical_critique s2 s3
              (or_intror eq_refl) Hnode3) as (Ha3 & Hh3 & Hp3 & Hi3).
  cbn in Ha3.
  assert (Hstep3 : graph_step agents clock (S (S (S (S tick))))
                     clinical_critique s2
                   = Return (s3, Some supervisor)).
  { apply graph_step_of_route; [exact Hnode3|].
    rewrite (route_after_agent s3 "ClinicalCritic"); [done|congruence..|done]. }
  (* the supervisor *)
  destruct (Hsup s3) as (rv & Hrv & Hhalt).
  set (s4 := set_status "awaiting_approval"
               (set_halted true
                  (set_status (default "deciding" (dr_status rv))
                     (set_active_agent (Some "Supervisor") s3)))).
  assert (Hnode4 : forall t, run_node agents clock t supervisor s3 = (s4, None)).
  { intros t. cbn. unfold supervisor_node. by rewrite Hrv, Hhalt. }
  assert (Hh4 : halted s4 = true) by by destruct s3.
  assert (Hstep4 : forall t, graph_step agents clock t supervisor s3
                             = Return (s4, None)).
  { intros t. apply graph_step_of_route; [apply Hnode4|].
    unfold route, should_continue. by rewrite Hh4. }
  exists s1, s2, s3, s4. repeat split.
  - cbn [run_graph Nat.add]. unfold entry_point.
    by rewrite Hstep1, Hstep2, Hstep3, Hstep4.
  - cbn. rewrite Ha1, Ha2, Ha3. by destruct s3.
  - exact Hh4.
  - by destruct s3.
  - transitivity (iteration_count s3); [by destruct s3|]. lia.
Qed.

Lemma first_pass_halts_witness :
  let agents :=
    mkAgents (drafter_draft Sample.revising)
      (safety_guardian_review Sample.revising)
      (clinical_critic_critique Sample.revising)
      (fun _ => Return (mkDecisionResult (Some "ready_for_review")
                          (Some true))) in
  exists s1 s2 s3 s4,
    run_graph agents Sample.clock0 9 0 entry_point
      (create_initial_state 0 "sleep hygiene" "s1" 5) = [s1; s2; s3; s4] /\
    status s4 = "awaiting_approval".
Proof.
  intros agents.
  destruct (first_pass_halts agents Sample.clock0 0 5 0 "sleep hygiene" "s1" 5)
    as (s1 & s2 & s3 & s4 & Hrun & _ & _ & Hst & _).
  - intros s. by eexists.
  - intros s. by eexists.
  - intros s. by eexists.
  - intros s. by eexists.
  - exists s1, s2, s3, s4. split; [exact Hrun|exact Hst].
Defined.

(** ** An unreachable branch of the stream *)

Lemma stream_nodes_messages (clock : nat -> datetime) (tick : nat)
    (sid : string) (w : World) (nodes : list string) :
  Forall paused_message (snd (stream_nodes clock tick sid w nodes)).
Proof.
  revert tick. induction nodes as [|n rest IH]; intros tick; [constructor|].
  cbn [stream_nodes]. destruct (default false _).
  - cbn. by repeat constructor.
  - specialize (IH (S tick)).
    destruct (stream_nodes clock (S tick) sid w rest) as [tick' evs].
    cbn in *. by constructor.
Qed.

Lemma stream_updates_messages (clock : nat -> datetime) (tick : nat)
    (sid : string) (events : list (list string * World)) :
  Forall paused_message (snd (stream_updates clock tick sid events)).
Proof.
  revert tick. induction events as [|[nodes w_ev] rest IH]; intros tick;
    [constructor|].
  cbn [stream_updates].
  pose proof (stream_nodes_messages clock tick sid w_ev nodes) as Hn.
  destruct (stream_nodes clock tick sid w_ev nodes) as [tick1 evs1].
  specialize (IH tick1).
  destruct (stream_updates clock tick1 sid rest) as [tick2 evs2].
  cbn in *. by apply Forall_app.
Qed.

Lemma stream_run_messages (engine : Engine) (clock : nat -> datetime)
    (tick : nat) (sid : string) (initial_state : ProtocolState) (w : World) :
  Forall paused_message (snd (stream_run engine clock tick sid initial_state w)).
Proof.
  unfold stream_run.
  destruct (negb (completed_or_awaiting (status initial_state))).
  - destruct (astream engine w sid) as [[events w_end] raised].
    pose proof (stream_updates_messages clock tick sid events) as Hu.
    destruct (stream_updates clock tick sid events) as [tick1 evs].
    destruct raised; cbn in *; apply Forall_app; by repeat constructor.
  - cbn. by repeat constructor.
Qed.

(** X23. The second "already halted" test of [event_generator] is never
    reached with a paused state, because the first test has returned by
    then: no stream yields a [halted] event with the message "Workflow is
    already paused for human review"; every [halted] event carries
    "Workflow paused for human review". *)
Theorem already_paused_branch_unreachable (engine : Engine)
    (clock : nat -> datetime) (sid : string) (w : World) :
  Forall paused_message (snd (stream_protocol engine clock sid w)).
Proof.
  unfold stream_protocol.
  destruct (checkpoints w !! sid) as [values|].
  - destruct (String.eqb (status values) "completed");
      [by repeat constructor|].
    destruct (is_paused values); [by repeat constructor|].
    destruct (String.eqb (status values) "initializing");
      apply stream_run_messages.
  - destruct (session_intents w !! sid) as [user_intent|];
      [|by repeat constructor].
    destruct (aupdate_state _ _ w) as [w1 [[]|e]];
      [apply stream_run_messages|by repeat constructor].
Qed.
